(** * AayuCare POC backend ([backend.py]): a shallow embedding and its properties

    The FastAPI handlers [health], [speech_to_text] and [find_doctor] are
    embedded as computations in a small monad that threads a log of the
    effects performed (outbound provider calls with their outcome, console
    prints) and may raise a Python exception.  The two providers (Sarvam
    speech-to-text over [requests.post], Gemini over [generate_content]) are
    oracles of the [world]; nothing is assumed about their answers.

    Python [str] values are modelled as [string], one [ascii] per code point
    below 256; [lower], [isspace] follow Python on that range. *)

From Stdlib Require Import String Ascii List ZArith Bool Arith Lia PrimFloat.
From Stdlib Require Import DecimalString.
Import ListNotations.
Local Open Scope string_scope.
Set Warnings "-inexact-float,-register-all".

(** ** Python string methods used by the handlers *)

Module PyStr.

(** [c.lower()] for a code point below 256: A-Z and the Latin-1 capitals
    (0xC0-0xDE except the multiplication sign 0xD7) move up by 32. *)
Definition lower_char (c : ascii) : ascii :=
  let n := nat_of_ascii c in
  if (((65 <=? n) && (n <=? 90))
      || ((192 <=? n) && (n <=? 222) && negb (n =? 215)))%nat
  then ascii_of_nat (n + 32)
  else c.

Fixpoint lower (s : string) : string :=
  match s with
  | EmptyString => EmptyString
  | String c s' => String (lower_char c) (lower s')
  end.

(** [c.isspace()] below 256: TAB..CR, FS..US, space, NEL and NBSP. *)
Definition isspace (c : ascii) : bool :=
  let n := nat_of_ascii c in
  (((9 <=? n) && (n <=? 13)) || ((28 <=? n) && (n <=? 32))
   || (n =? 133) || (n =? 160))%nat.

Fixpoint lstrip (s : string) : string :=
  match s with
  | EmptyString => EmptyString
  | String c s' => if isspace c then lstrip s' else s
  end.

Fixpoint rstrip (s : string) : string :=
  match s with
  | EmptyString => EmptyString
  | String c s' =>
      match rstrip s' with
      | EmptyString => if isspace c then EmptyString else String c EmptyString
      | r => String c r
      end
  end.

(** [s.strip()] *)
Definition strip (s : string) : string := rstrip (lstrip s).

(** [s.startswith(p)] *)
Definition startswith (s p : string) : bool := prefix p s.

(** [sub in s] *)
Fixpoint str_in (sub s : string) : bool :=
  prefix sub s ||
  match s with
  | EmptyString => false
  | String _ s' => str_in sub s'
  end.

(** Left-to-right scan of [s.replace(old, new)] for a non-empty [old];
    [skip] counts the characters of the current match still to drop. *)
Fixpoint replace_from (old new s : string) (skip : nat) : string :=
  match s with
  | EmptyString => EmptyString
  | String c s' =>
      match skip with
      | S k => replace_from old new s' k
      | O =>
          if prefix old s
          then new ++ replace_from old new s' (String.length old - 1)
          else String c (replace_from old new s' 0)
      end
  end.

(** With an empty [old] Python puts [new] around every character. *)
Fixpoint sprinkle (new s : string) : string :=
  match s with
  | EmptyString => new
  | String c s' => new ++ String c (sprinkle new s')
  end.

(** [s.replace(old, new)] *)
Definition replace (s old new : string) : string :=
  match old with
  | EmptyString => sprinkle new s
  | _ => replace_from old new s 0
  end.

(** [s.split(sep)] for a one-character separator; never the empty list. *)
Fixpoint split (s : string) (sep : ascii) : list string :=
  match s with
  | EmptyString => [EmptyString]
  | String c s' =>
      if Ascii.eqb c sep then EmptyString :: split s' sep
      else
        match split s' sep with
        | piece :: rest => String c piece :: rest
        | [] => [String c EmptyString]
        end
  end.

(** Truth value of a [str]. *)
Definition nonempty (s : string) : bool :=
  match s with EmptyString => false | _ => true end.

End PyStr.
Import PyStr.

Definition LF : ascii := ascii_of_nat 10.
Definition nl : string := String LF EmptyString.
Definition dquote : string := String (ascii_of_nat 34) EmptyString.

(** [bool(x)] for a value that is [None] or a [str]. *)
Definition truthy (x : option string) : bool :=
  match x with
  | Some s => nonempty s
  | None => false
  end.

(** ** Python values *)

Inductive number :=
| Int (z : Z)
| Float (x : float).

Inductive json :=
| JNull
| JBool (b : bool)
| JNum (n : number)
| JStr (s : string)
| JArr (items : list json)
| JObj (fields : list (string * json)).

Definition type_name (v : json) : string :=
  match v with
  | JNull => "NoneType"
  | JBool _ => "bool"
  | JNum (Int _) => "int"
  | JNum (Float _) => "float"
  | JStr _ => "str"
  | JArr _ => "list"
  | JObj _ => "dict"
  end.

(** Instances of [Exception]: the handlers' own [HTTPException], and any other
    one, kept as its class name and its [str(e)]. *)
Inductive exn :=
| HTTPException (status_code : Z) (detail : string)
| Raised (cls : string) (msg : string).

(** What the handlers use of their libraries without defining it:
    [float(s)] ([None] when it raises [ValueError]) and
    [str(e)] of an [HTTPException]. *)
Class Runtime := {
  py_float : string -> option float;
  HTTPException_str : Z -> string -> string
}.

Definition str_exn {rt : Runtime} (e : exn) : string :=
  match e with
  | HTTPException status_code detail => HTTPException_str status_code detail
  | Raised _ msg => msg
  end.

Definition AttributeError (type attr : string) : exn :=
  Raised "AttributeError" ("'" ++ type ++ "' object has no attribute '" ++ attr ++ "'").

(** ** The providers' objects *)

Module requests.
Record Request := {
  url : string;
  headers : list (string * option string);
  files : list (string * (option string * string * option string));
  data : list (string * string)
}.
(** [json] is the outcome of [response.json()]. *)
Record Response := {
  status_code : Z;
  text : string;
  json : exn + json
}.
End requests.

(** An attribute that may be missing ([hasattr] false), and holds [None] or a
    string when it is there. *)
Inductive attr :=
| NoAttr
| Attr (v : option string).

Module types.
Record LatLng := { latitude : float; longitude : float }.
Record GroundingChunkMaps := { title : attr; uri : attr }.
(** In the four records below [None] stands for an attribute that is
    missing or [None]: the handler tests [hasattr(x, a) and x.a]. *)
Record GroundingChunk := { maps : option GroundingChunkMaps }.
Record GroundingMetadata := { grounding_chunks : option (list GroundingChunk) }.
Record Candidate := { grounding_metadata : option GroundingMetadata }.
Record GenerateContentResponse := {
  text : option string;
  candidates : option (list Candidate)
}.
(** [config] is [None] for a plain call, and [Some ll] for the call with
    the Google Maps tool and the retrieval position [ll]. *)
Record GenerateContentRequest := {
  model : string;
  contents : string;
  config : option LatLng
}.
End types.

Record UploadFile := {
  filename : option string;
  content_type : option string;
  read : exn + string
}.

Record SymptomRequest := { input : string }.

(** ** Effects *)

Inductive event :=
| Post (req : requests.Request) (outcome : exn + requests.Response)
| GenerateContent (req : types.GenerateContentRequest)
                  (outcome : exn + types.GenerateContentResponse)
| Print (msg : string).

Definition outbound (e : event) : bool :=
  match e with
  | Post _ _ | GenerateContent _ _ => true
  | Print _ => false
  end.

(** The providers answer as they like, also depending on what happened before. *)
Record world := {
  sarvam : list event -> requests.Request -> exn + requests.Response;
  gemini : list event -> types.GenerateContentRequest -> exn + types.GenerateContentResponse
}.

Definition M (A : Type) : Type := world -> list event -> list event * (exn + A).

Definition ret {A} (a : A) : M A := fun _ log => (log, inr a).

Definition raise {A} (e : exn) : M A := fun _ log => (log, inl e).

Definition bind {A B} (m : M A) (k : A -> M B) : M B :=
  fun w log =>
    match m w log with
    | (log', inr a) => k a w log'
    | (log', inl e) => (log', inl e)
    end.

Definition try_except {A} (body : M A) (handler : exn -> M A) : M A :=
  fun w log =>
    match body w log with
    | (log', inl e) => handler e w log'
    | done => done
    end.

Definition lift {A} (o : exn + A) : M A := fun _ log => (log, o).

Definition print (msg : string) : M unit :=
  fun _ log => ((log ++ [Print msg])%list, inr tt).

Definition requests_post (req : requests.Request) : M requests.Response :=
  fun w log => let o := sarvam w log req in ((log ++ [Post req o])%list, o).

Definition generate_content (req : types.GenerateContentRequest)
  : M types.GenerateContentResponse :=
  fun w log => let o := gemini w log req in ((log ++ [GenerateContent req o])%list, o).

Declare Scope py_scope.
Delimit Scope py_scope with py.
Notation "x <- m ;; k" := (bind m (fun x => k))
  (at level 61, m at next level, right associativity) : py_scope.
Notation "m ;; k" := (bind m (fun _ => k))
  (at level 61, right associativity) : py_scope.
Local Open Scope py_scope.

(** Outbound calls among the events. *)
Definition outbound_calls (log : list event) : nat :=
  List.length (filter outbound log).

(** ** Module state of [backend.py] *)

(** The two keys as [os.getenv] returned them at start-up. *)
Record config := {
  GEMINI_API_KEY : option string;
  SARVAM_API_KEY : option string
}.

(** [gemini_client] is a client only when the key is truthy, else [None]. *)
Definition gemini_client (cfg : config) : option string :=
  if negb (truthy (GEMINI_API_KEY cfg)) then None else GEMINI_API_KEY cfg.

(** ** Response bodies *)

Module Health.
Record response := {
  status : string;
  message : string;
  gemini_configured : bool;
  sarvam_configured : bool
}.
End Health.

Module SpeechToText.
Record response := {
  success : bool;
  text : json;
  language : json
}.
End SpeechToText.

Record doctor_info := {
  name : option string;
  address : string;
  distance : string;
  rating : number;
  open : string;
  url : option string
}.

Module FindDoctor.
Record response := {
  success : bool;
  doctor_type : string;
  recommendation : string;
  location : string;
  symptoms : string;
  nearby_doctors : list doctor_info
}.
End FindDoctor.

(** ** Pieces of the handlers *)

(** Items of a [dict] parsed from JSON (keys distinct). *)
Fixpoint lookup (key : string) (fields : list (string * json)) : option json :=
  match fields with
  | [] => None
  | (k, v) :: rest => if String.eqb k key then Some v else lookup key rest
  end.

(** [result.get(key, default)]; only a [dict] has [get]. *)
Definition dict_get (result : json) (key : string) (default : json) : exn + json :=
  match result with
  | JObj fields =>
      inr (match lookup key fields with Some v => v | None => default end)
  | other => inl (AttributeError (type_name other) "get")
  end.

(** The receiver of a [str] method call: [None] has no such method. *)
Definition receiver (method : string) (x : option string) : exn + string :=
  match x with
  | Some s => inr s
  | None => inl (AttributeError "NoneType" method)
  end.

(** [getattr]-with-default, as [x.a if hasattr(x, a) else default]. *)
Definition attr_or (a : attr) (default : string) : option string :=
  match a with
  | NoAttr => Some default
  | Attr v => v
  end.

(** The four variables the extraction loop assigns. *)
Module Extracted.
Record vars := {
  symptoms : string;
  location : string;
  latitude : float;
  longitude : float
}.
End Extracted.

Definition extraction_prompt (input : string) : string :=
  String.concat nl
    [ "Extract the symptoms and location from the following user input.";
      "";
      "User Input: " ++ input;
      "";
      "Provide the response in this exact format:";
      "SYMPTOMS: [extracted symptoms]";
      "LOCATION: [extracted city name or " ++ dquote ++ "Mumbai" ++ dquote
        ++ " if not mentioned]";
      "LATITUDE: [latitude of the location]";
      "LONGITUDE: [longitude of the location]";
      "";
      "If location is not mentioned, use Mumbai as default (19.0760, 72.8777)." ].

Definition recommendation_prompt (symptoms location : string) : string :=
  String.concat nl
    [ "You are a helpful healthcare assistant for rural areas.";
      "";
      "User Symptoms: " ++ symptoms;
      "User Location: " ++ location;
      "";
      "Please provide:";
      "1. What type of doctor they should see (e.g., General Physician, Cardiologist, Dermatologist)";
      "2. A brief, simple explanation (1-2 sentences)";
      "3. What to tell the doctor when they visit";
      "";
      "Keep it simple and in plain language. Don't give medical advice, just help them find the right doctor type.";
      "";
      "Format your response as:";
      "Doctor Type: [type]";
      "Reason: [simple explanation]";
      "What to mention: [key symptoms to tell doctor]";
      "" ].

Definition maps_prompt (doctor_type : string) : string :=
  "Find the best " ++ doctor_type
  ++ " doctors or clinics near me. List top 5 options with their name, address, rating, and distance.".

(** Lines 167-170: the values the loop starts from. *)
Definition extraction_defaults : Extracted.vars :=
  {| Extracted.symptoms := "General symptoms";
     Extracted.location := "Mumbai";
     Extracted.latitude := 19.0760%float;
     Extracted.longitude := 72.8777%float |}.

Section Extraction.
Context {rt : Runtime}.

(** One turn of the loop of lines 172-187. *)
Definition scan_line (v : Extracted.vars) (line : string) : Extracted.vars :=
  let line := strip line in
  if startswith line "SYMPTOMS:" then
    {| Extracted.symptoms := strip (replace line "SYMPTOMS:" "");
       Extracted.location := Extracted.location v;
       Extracted.latitude := Extracted.latitude v;
       Extracted.longitude := Extracted.longitude v |}
  else if startswith line "LOCATION:" then
    {| Extracted.symptoms := Extracted.symptoms v;
       Extracted.location := strip (replace line "LOCATION:" "");
       Extracted.latitude := Extracted.latitude v;
       Extracted.longitude := Extracted.longitude v |}
  else if startswith line "LATITUDE:" then
    match py_float (strip (replace line "LATITUDE:" "")) with
    | Some x =>
        {| Extracted.symptoms := Extracted.symptoms v;
           Extracted.location := Extracted.location v;
           Extracted.latitude := x;
           Extracted.longitude := Extracted.longitude v |}
    | None => v
    end
  else if startswith line "LONGITUDE:" then
    match py_float (strip (replace line "LONGITUDE:" "")) with
    | Some x =>
        {| Extracted.symptoms := Extracted.symptoms v;
           Extracted.location := Extracted.location v;
           Extracted.latitude := Extracted.latitude v;
           Extracted.longitude := x |}
    | None => v
    end
  else v.

(** Lines 166-187. *)
Definition parse_extraction (extraction_text : string) : Extracted.vars :=
  fold_left scan_line (split extraction_text LF) extraction_defaults.

End Extraction.

(** Lines 217-230. *)
Definition doctor_type_of (ai_response : string) : string :=
  if str_in "cardiologist" (lower ai_response) then "Cardiologist"
  else if str_in "dermatologist" (lower ai_response) then "Dermatologist"
  else if str_in "orthopedic" (lower ai_response) then "Orthopedic"
  else if str_in "neurologist" (lower ai_response) then "Neurologist"
  else if str_in "ent" (lower ai_response) || str_in "ear" (lower ai_response)
       then "ENT Specialist"
  else if str_in "pediatrician" (lower ai_response) then "Pediatrician"
  else "General Physician".

(** Lines 265-276. *)
Definition doctor_info_of (location : string) (maps : types.GroundingChunkMaps)
  : doctor_info :=
  {| name := attr_or (types.title maps) "Medical Center";
     address := location;
     distance := "See Google Maps";
     rating := Float 4.5%float;
     open := "See Google Maps for hours";
     url := attr_or (types.uri maps) "" |}.

(** Lines 248-277: the entries appended from the grounding metadata. *)
Definition grounded_doctors (location : string)
           (maps_response : types.GenerateContentResponse) : list doctor_info :=
  let nearby_doctors := [] in
  match types.candidates maps_response with
  | Some (candidate :: _) =>
      match types.grounding_metadata candidate with
      | Some grounding =>
          match types.grounding_chunks grounding with
          | Some ((_ :: _) as chunks) =>
              fold_left
                (fun nearby_doctors chunk =>
                   match types.maps chunk with
                   | Some maps =>
                       (nearby_doctors ++ [doctor_info_of location maps])%list
                   | None => nearby_doctors
                   end)
                (firstn 5 chunks) nearby_doctors
          | _ => nearby_doctors
          end
      | None => nearby_doctors
      end
  | _ => nearby_doctors
  end.

(** Lines 281-290. *)
Definition fallback_doctor (doctor_type location : string) : doctor_info :=
  {| name := Some ("Search " ++ doctor_type ++ " in " ++ location);
     address := location;
     distance := "Click to search";
     rating := Int 0;
     open := "Search on Google Maps";
     url := Some ("https://www.google.com/maps/search/" ++ doctor_type
                  ++ "+near+" ++ replace location " " "+") |}.

(** Lines 248-290. *)
Definition nearby_doctors_of (doctor_type location : string)
           (maps_response : types.GenerateContentResponse) : list doctor_info :=
  match grounded_doctors location maps_response with
  | [] => [fallback_doctor doctor_type location]
  | nearby_doctors => nearby_doctors
  end.

(** Lines 160-163, 209-212 and 235-246: the arguments of the three
    [generate_content] calls. *)
Definition extraction_request (input : string) : types.GenerateContentRequest :=
  {| types.model := "gemini-2.0-flash";
     types.contents := extraction_prompt input;
     types.config := None |}.

Definition recommendation_request (symptoms location : string)
  : types.GenerateContentRequest :=
  {| types.model := "gemini-2.0-flash";
     types.contents := recommendation_prompt symptoms location;
     types.config := None |}.

Definition maps_request (doctor_type : string) (latitude longitude : float)
  : types.GenerateContentRequest :=
  {| types.model := "gemini-2.0-flash";
     types.contents := maps_prompt doctor_type;
     types.config := Some {| types.latitude := latitude;
                             types.longitude := longitude |} |}.

(** ** The handlers *)

Section Handlers.
Context {rt : Runtime} (cfg : config).

(** [GET /api/health] *)
Definition health : M Health.response :=
  ret {| Health.status := "healthy";
         Health.message := "AayuCare POC API is running!";
         Health.gemini_configured := truthy (GEMINI_API_KEY cfg);
         Health.sarvam_configured := truthy (SARVAM_API_KEY cfg) |}.

(** Lines 88-105: the arguments of [requests.post]. *)
Definition sarvam_request (audio : UploadFile) (audio_content : string)
  : requests.Request :=
  let url := "https://api.sarvam.ai/speech-to-text-translate" in
  let headers := [("api-subscription-key", SARVAM_API_KEY cfg)] in
  let files := [("file", (filename audio, audio_content, content_type audio))] in
  let data := [("model", "saaras:v2"); ("prompt", "medical symptoms healthcare")] in
  {| requests.url := url;
     requests.headers := headers;
     requests.files := files;
     requests.data := data |}.

(** Lines 85-119: the [try] block of [speech_to_text]. *)
Definition speech_to_text_try (audio : UploadFile) : M SpeechToText.response :=
  audio_content <- lift (read audio) ;;
  response <- requests_post (sarvam_request audio audio_content) ;;
  if negb (requests.status_code response =? 200)%Z then
    raise (HTTPException (requests.status_code response)
                         ("Sarvam API error: " ++ requests.text response))
  else
    result <- lift (requests.json response) ;;
    text <- lift (dict_get result "transcript" (JStr "")) ;;
    language <- lift (dict_get result "language_code" (JStr "en")) ;;
    ret {| SpeechToText.success := true;
           SpeechToText.text := text;
           SpeechToText.language := language |}.

(** Lines 121-125: the [except Exception as e] clause. *)
Definition speech_to_text_except (e : exn) : M SpeechToText.response :=
  print ("Speech to text error: " ++ str_exn e) ;;
  raise (HTTPException 500 ("Failed to convert speech to text: " ++ str_exn e)).

(** [POST /api/speech-to-text] *)
Definition speech_to_text (audio : UploadFile) : M SpeechToText.response :=
  if negb (truthy (SARVAM_API_KEY cfg)) then
    raise (HTTPException 500
             "Sarvam API key not configured. Please add SARVAM_API_KEY to .env file")
  else
    try_except (speech_to_text_try audio) speech_to_text_except.

(** [gemini_client.models.generate_content(...)] *)
Definition models_generate_content (req : types.GenerateContentRequest)
  : M types.GenerateContentResponse :=
  match gemini_client cfg with
  | Some _ => generate_content req
  | None => raise (AttributeError "NoneType" "models")
  end.

(** Lines 147-299: the [try] block of [find_doctor]. *)
Definition find_doctor_try (request : SymptomRequest) : M FindDoctor.response :=
  response1 <- models_generate_content (extraction_request (input request)) ;;
  extraction_text <- lift (receiver "split" (types.text response1)) ;;
  let v := parse_extraction extraction_text in
  let symptoms := Extracted.symptoms v in
  let location := Extracted.location v in
  let latitude := Extracted.latitude v in
  let longitude := Extracted.longitude v in
  response2 <- models_generate_content (recommendation_request symptoms location) ;;
  ai_response <- lift (receiver "lower" (types.text response2)) ;;
  let doctor_type := doctor_type_of ai_response in
  maps_response <- models_generate_content
                     (maps_request doctor_type latitude longitude) ;;
  let nearby_doctors := nearby_doctors_of doctor_type location maps_response in
  ret {| FindDoctor.success := true;
         FindDoctor.doctor_type := doctor_type;
         FindDoctor.recommendation := ai_response;
         FindDoctor.location := location;
         FindDoctor.symptoms := symptoms;
         FindDoctor.nearby_doctors := nearby_doctors |}.

(** Lines 301-305: the [except Exception as e] clause. *)
Definition find_doctor_except (e : exn) : M FindDoctor.response :=
  print ("Error: " ++ str_exn e) ;;
  raise (HTTPException 500 ("Failed to analyze symptoms: " ++ str_exn e)).

(** [POST /api/find-doctor] *)
Definition find_doctor (request : SymptomRequest) : M FindDoctor.response :=
  if negb (truthy (GEMINI_API_KEY cfg)) then
    raise (HTTPException 500
             "Gemini API key not configured. Please add GEMINI_API_KEY to .env file")
  else
    try_except (find_doctor_try request) find_doctor_except.

End Handlers.

(** ** The behaviour the specification describes, in its own words *)

(** [keyword] occurs in [reply] as a substring, letter case ignored. *)
Definition occurs_ci (keyword reply : string) : Prop :=
  exists before hit after,
    reply = before ++ hit ++ after /\ lower hit = keyword.

(** The ordered keyword list of the classifier, with the specialty each
    keyword stands for. *)
Definition keyword_table : list (list string * string) :=
  [ (["cardiologist"], "Cardiologist");
    (["dermatologist"], "Dermatologist");
    (["orthopedic"], "Orthopedic");
    (["neurologist"], "Neurologist");
    (["ent"; "ear"], "ENT Specialist");
    (["pediatrician"], "Pediatrician") ].

(** First match wins; no match yields "General Physician". *)
Inductive first_match (reply : string)
  : list (list string * string) -> string -> Prop :=
| first_match_none :
    first_match reply [] "General Physician"
| first_match_here keywords specialty rest keyword :
    In keyword keywords ->
    occurs_ci keyword reply ->
    first_match reply ((keywords, specialty) :: rest) specialty
| first_match_later keywords specialty rest answer :
    (forall keyword, In keyword keywords -> ~ occurs_ci keyword reply) ->
    first_match reply rest answer ->
    first_match reply ((keywords, specialty) :: rest) answer.

(** [doctor_type] is what the classifier owes for [reply]: the one answer of
    [first_match] over the keyword list; "Cardiologist" as soon as
    "cardiologist" occurs in any letter case; "General Physician" when no
    keyword of the list occurs. *)
Definition classified_as (reply doctor_type : string) : Prop :=
  (forall answer,
      first_match reply keyword_table answer <-> answer = doctor_type)
  /\ (occurs_ci "cardiologist" reply -> doctor_type = "Cardiologist")
  /\ ((forall keywords specialty keyword,
          In (keywords, specialty) keyword_table -> In keyword keywords ->
          ~ occurs_ci keyword reply) ->
      doctor_type = "General Physician").

(** The stripped lines of the reply that start with [label]. *)
Definition labelled (label text : string) : list string :=
  filter (fun line => startswith line label) (map strip (split text LF)).

(** The value read from such a line: the line without the label text
    ([str.replace] drops every occurrence of it), stripped. *)
Definition value_of (label line : string) : string :=
  strip (replace line label "").

(** The numeric values among the lines that start with [label]. *)
Definition numeric {rt : Runtime} (label text : string) : list float :=
  flat_map
    (fun line => match py_float (value_of label line) with
                 | Some x => [x]
                 | None => []
                 end)
    (labelled label text).

(** The truthy [maps] of the first five grounding chunks of the first
    candidate: the usable grounding entries. *)
Definition usable_entries (maps_response : types.GenerateContentResponse)
  : list types.GroundingChunkMaps :=
  match types.candidates maps_response with
  | Some (candidate :: _) =>
      match types.grounding_metadata candidate with
      | Some grounding =>
          match types.grounding_chunks grounding with
          | Some chunks =>
              flat_map
                (fun chunk =>
                   match types.maps chunk with
                   | Some maps => [maps]
                   | None => []
                   end)
                (firstn 5 chunks)
          | None => []
          end
      | None => []
      end
  | _ => []
  end.

(** Every space turned into a plus sign. *)
Fixpoint spaces_to_plus (s : string) : string :=
  match s with
  | EmptyString => EmptyString
  | String c s' =>
      String (if Ascii.eqb c " " then "+"%char else c) (spaces_to_plus s')
  end.

(** The search URL of the fallback entry. *)
Definition search_url (doctor_type location : string) : string :=
  "https://www.google.com/maps/search/" ++ doctor_type ++ "+near+"
  ++ spaces_to_plus location.

(** "The address, rating, hours and distance of every extracted entry are
    hardcoded": the same four constants whatever the request. *)
Definition placeholders_hardcoded : Prop :=
  exists address0 distance0 rating0 open0,
  forall location maps_response entry,
    In entry (grounded_doctors location maps_response) ->
    address entry = address0 /\ distance entry = distance0
    /\ rating entry = rating0 /\ open entry = open0.

(** A key is configured when it is set to a non-empty string. *)
Definition configured (key : option string) : Prop :=
  exists k, key = Some k /\ k <> "".

(** An outbound call that raised. *)
Definition raised_call (ev : event) : bool :=
  match ev with
  | Post _ (inl _) | GenerateContent _ (inl _) => true
  | _ => false
  end.

(** No call is made after one that raised: every event but the last is
    something else than a raised call. *)
Definition stops_at_failure (added : list event) : bool :=
  forallb (fun ev => negb (raised_call ev)) (removelast added).

(** ** Sample environments *)

Module Sample.

(** Starlette's [HTTPException.__str__], f"{status_code}: {detail}", and a
    [float] that reads two literals. *)
Definition runtime : Runtime :=
  {| py_float := fun s =>
       if String.eqb s "18.5204" then Some 18.5204%float
       else if String.eqb s "73.8567" then Some 73.8567%float
       else None;
     HTTPException_str := fun status_code detail =>
       NilZero.string_of_int (Z.to_int status_code) ++ ": " ++ detail |}.

Definition keys : config :=
  {| GEMINI_API_KEY := Some "gemini-key"; SARVAM_API_KEY := Some "sarvam-key" |}.

(** One key unset, the other set to the empty string. *)
Definition no_keys : config :=
  {| GEMINI_API_KEY := None; SARVAM_API_KEY := Some "" |}.

Definition audio : UploadFile :=
  {| filename := Some "voice.wav";
     content_type := Some "audio/wav";
     read := inr "RIFF" |}.

Definition unreachable : exn := Raised "ConnectionError" "provider unreachable".

Definition not_found : requests.Response :=
  {| requests.status_code := 404;
     requests.text := "Not Found";
     requests.json := inl (Raised "JSONDecodeError" "Expecting value") |}.

(** Sarvam answers every request with [response]; Gemini is down. *)
Definition sarvam_answers (response : requests.Response) : world :=
  {| sarvam := fun _ _ => inr response;
     gemini := fun _ _ => inl unreachable |}.

(** Both providers are down. *)
Definition offline : world :=
  {| sarvam := fun _ _ => inl unreachable;
     gemini := fun _ _ => inl unreachable |}.

(** Gemini answers its first, second and later calls with [r1], [r2], [r3]. *)
Definition gemini_answers (r1 r2 r3 : types.GenerateContentResponse) : world :=
  {| sarvam := fun _ _ => inl unreachable;
     gemini := fun log _ =>
       match outbound_calls log with
       | 0 => inr r1
       | 1 => inr r2
       | _ => inr r3
       end |}.

(** Gemini answers by turn, whatever it is asked: [r1] when nothing was
    logged yet, [r2] after one event, [r3] later. *)
Definition gemini_in_turn (r1 r2 r3 : types.GenerateContentResponse) : world :=
  {| sarvam := fun _ _ => inl unreachable;
     gemini := fun log _ =>
       match log with
       | [] => inr r1
       | [_] => inr r2
       | _ => inr r3
       end |}.

Definition reply (text : string) : types.GenerateContentResponse :=
  {| types.text := Some text; types.candidates := None |}.

Definition pune : string :=
  "SYMPTOMS: chest pain" ++ nl ++ "LOCATION: Pune" ++ nl
  ++ "LATITUDE: 18.5204" ++ nl ++ "LONGITUDE: 73.8567".

Definition new_delhi : string :=
  "symptoms: fever" ++ nl ++ "  LOCATION: New Delhi  " ++ nl
  ++ "LATITUDE: north" ++ nl ++ "LONGITUDE: 77 E".

Definition heart : string :=
  "Doctor Type: CARDIOLOGIST" ++ nl ++ "Reason: chest pain needs a heart check.".

Definition fever : string :=
  "Doctor Type: General Physician" ++ nl
  ++ "Reason: The patient needs treatment for fever.".

Definition rest : string := "Drink fluids and sleep.".

Definition place (title uri : string) : types.GroundingChunk :=
  {| types.maps := Some {| types.title := Attr (Some title);
                           types.uri := Attr (Some uri) |} |}.

Definition grounded (chunks : list types.GroundingChunk)
  : types.GenerateContentResponse :=
  {| types.text := Some "Here are some options.";
     types.candidates :=
       Some [ {| types.grounding_metadata :=
                   Some {| types.grounding_chunks := Some chunks |} |} ] |}.

Definition two_places : types.GenerateContentResponse :=
  grounded [ place "City Heart Clinic" "https://maps.google.com/?cid=1";
             {| types.maps := None |};
             place "Sahyadri Hospital" "https://maps.google.com/?cid=2" ].

Definition seven_places : types.GenerateContentResponse :=
  grounded [ place "A" "u1"; place "B" "u2"; place "C" "u3"; place "D" "u4";
             place "E" "u5"; place "F" "u6"; place "G" "u7" ].

Definition ungrounded : types.GenerateContentResponse :=
  {| types.text := Some "No results."; types.candidates := Some [] |}.

(** A run of [find_doctor] with both keys set and Gemini answering. *)
Definition visit (input : string) (r1 r2 r3 : types.GenerateContentResponse)
  : list event * (exn + FindDoctor.response) :=
  find_doctor (rt := runtime) keys {| input := input |}
              (gemini_answers r1 r2 r3) [].

(** Its events before the last one. *)
Definition earlier (input : string) (r1 r2 r3 : types.GenerateContentResponse)
  : list event :=
  removelast (fst (visit input r1 r2 r3)).

End Sample.

(** ** Notions used by the further properties *)

(** [c] is one of the characters of [s]. *)
Fixpoint has_char (c : ascii) (s : string) : bool :=
  match s with
  | EmptyString => false
  | String d s' => Ascii.eqb d c || has_char c s'
  end.

(** No whitespace at either end. *)
Definition trimmed (s : string) : Prop := lstrip s = s /\ rstrip s = s.

(** No whitespace at all. *)
Fixpoint compact (s : string) : bool :=
  match s with
  | EmptyString => true
  | String c s' => negb (isspace c) && compact s'
  end.

(** A value that can stand after a label on a line of the extraction
    format and be read back: one line, trimmed, free of the label text. *)
Definition plain_value (label value : string) : Prop :=
  has_char LF value = false /\ trimmed value /\ str_in label value = false.

(** A reply in the format the extraction prompt asks for (lines 153-156). *)
Definition formatted_reply (symptoms location latitude longitude : string)
  : string :=
  "SYMPTOMS: " ++ symptoms ++ nl
  ++ "LOCATION: " ++ location ++ nl
  ++ "LATITUDE: " ++ latitude ++ nl
  ++ "LONGITUDE: " ++ longitude.

Definition is_post (ev : event) : bool :=
  match ev with Post _ _ => true | _ => false end.

Definition is_generate_content (ev : event) : bool :=
  match ev with GenerateContent _ _ => true | _ => false end.

(** The maps response with its candidates replaced. *)
Definition with_candidates (maps_response : types.GenerateContentResponse)
           (candidates : option (list types.Candidate))
  : types.GenerateContentResponse :=
  {| types.text := types.text maps_response;
     types.candidates := candidates |}.

Module More.

(** Sarvam's answer to a Hindi recording. *)
Definition transcribed : requests.Response :=
  {| requests.status_code := 200;
     requests.text := "{...}";
     requests.json :=
       inr (JObj [("transcript", JStr "I have had a fever for two days");
                  ("language_code", JStr "hi-IN")]) |}.

(** A 200 answer whose body is a JSON array. *)
Definition array_body : requests.Response :=
  {| requests.status_code := 200;
     requests.text := "[]";
     requests.json := inr (JArr []) |}.

(** A Gemini answer without text. *)
Definition blocked : types.GenerateContentResponse :=
  {| types.text := None; types.candidates := None |}.

(** A reply that follows the format of the recommendation prompt. *)
Definition child : string :=
  "Doctor Type: Pediatrician" ++ nl
  ++ "Reason: A child with a cough should see a child doctor." ++ nl
  ++ "What to mention: cough, how long, any fever".

(** Six grounding chunks of which only the sixth has a place. *)
Definition late_place : types.GenerateContentResponse :=
  Sample.grounded
    [ {| types.maps := None |}; {| types.maps := None |};
      {| types.maps := None |}; {| types.maps := None |};
      {| types.maps := None |}; Sample.place "Sixth Clinic" "u6" ].

End More.

(** ** Strings *)

Lemma prefix_iff (p s : string) :
  prefix p s = true <-> exists rest, s = p ++ rest.
Proof.
  revert s; induction p as [|c p IH]; intros s; simpl.
  - split; [intros _; now exists s | now destruct s].
  - destruct s as [|d s]; simpl.
    + split; [discriminate | intros [rest E]; discriminate].
    + destruct (ascii_dec c d) as [->|N].
      * rewrite IH. split; intros [rest E]; exists rest.
        -- now rewrite E.
        -- now injection E.
      * split; [discriminate | intros [rest E]; injection E; congruence].
Qed.

Lemma str_in_iff (sub s : string) :
  str_in sub s = true <-> exists before after, s = before ++ sub ++ after.
Proof.
  induction s as [|c s IH].
  - cbn [str_in]. rewrite orb_false_r, prefix_iff. split.
    + intros [rest E]. now exists "", rest.
    + intros [[|b before] [after E]]; simpl in E; [now exists after | discriminate].
  - cbn [str_in]. rewrite orb_true_iff, IH, prefix_iff. split.
    + intros [[rest E] | [before [after E]]].
      * now exists "", rest.
      * exists (String c before), after. now rewrite E.
    + intros [[|b before] [after E]]; simpl in E.
      * left. now exists after.
      * right. exists before, after. now injection E.
Qed.

Lemma lower_app (a b : string) : lower (a ++ b) = lower a ++ lower b.
Proof. induction a as [|c a IH]; simpl; [reflexivity | now rewrite IH]. Qed.

Lemma lower_app_inv (s a b : string) :
  lower s = a ++ b -> exists x y, s = x ++ y /\ lower x = a /\ lower y = b.
Proof.
  revert s; induction a as [|c a IH]; intros s E; simpl in E.
  - now exists "", s.
  - destruct s as [|d s]; simpl in E; [discriminate|].
    injection E as Ec Es. destruct (IH _ Es) as (x & y & -> & Hx & Hy).
    exists (String d x), y. simpl. now rewrite Ec, Hx.
Qed.

(** The handler's test [keyword in ai_response.lower()] is the
    case-insensitive occurrence. *)
Lemma str_in_lower_iff (keyword reply : string) :
  str_in keyword (lower reply) = true <-> occurs_ci keyword reply.
Proof.
  rewrite str_in_iff. split.
  - intros (a & b & E).
    destruct (lower_app_inv _ _ _ E) as (before & rest & -> & <- & E').
    destruct (lower_app_inv _ _ _ E') as (hit & after & -> & <- & _).
    now exists before, hit, after.
  - intros (before & hit & after & -> & <-).
    exists (lower before), (lower after). now rewrite !lower_app.
Qed.

Lemma str_in_lower_false (keyword reply : string) :
  str_in keyword (lower reply) = false <-> ~ occurs_ci keyword reply.
Proof.
  rewrite <- str_in_lower_iff. destruct (str_in keyword (lower reply)); split;
    congruence.
Qed.

(** ** The doctor-type classifier *)

Ltac keyword_absent :=
  let kw := fresh "kw" in
  let Hin := fresh "Hin" in
  intros kw Hin; simpl in Hin;
  repeat match goal with
         | H : _ \/ _ |- _ => destruct H
         | H : False |- _ => destruct H
         end;
  subst; now apply str_in_lower_false.

Ltac keyword_present kw :=
  apply first_match_here with (keyword := kw);
  [ simpl; tauto | now apply str_in_lower_iff ].

Lemma doctor_type_first_match (reply : string) :
  first_match reply keyword_table (doctor_type_of reply).
Proof.
  unfold doctor_type_of, keyword_table.
  destruct (str_in "cardiologist" (lower reply)) eqn:K1;
    [keyword_present "cardiologist" | apply first_match_later; [keyword_absent|]].
  destruct (str_in "dermatologist" (lower reply)) eqn:K2;
    [keyword_present "dermatologist" | apply first_match_later; [keyword_absent|]].
  destruct (str_in "orthopedic" (lower reply)) eqn:K3;
    [keyword_present "orthopedic" | apply first_match_later; [keyword_absent|]].
  destruct (str_in "neurologist" (lower reply)) eqn:K4;
    [keyword_present "neurologist" | apply first_match_later; [keyword_absent|]].
  destruct (str_in "ent" (lower reply)) eqn:K5; simpl.
  { keyword_present "ent". }
  destruct (str_in "ear" (lower reply)) eqn:K6.
  { keyword_present "ear". }
  apply first_match_later; [keyword_absent|].
  destruct (str_in "pediatrician" (lower reply)) eqn:K7;
    [keyword_present "pediatrician" | apply first_match_later; [keyword_absent|]].
  apply first_match_none.
Qed.

(** [first_match] names one answer only. *)
Lemma first_match_unique (reply : string) table a b :
  first_match reply table a -> first_match reply table b -> a = b.
Proof.
  intros Ha; revert b.
  induction Ha as [| kws sp rest kw Hin Hocc | kws sp rest ans Hno Hrest IH];
    intros b Hb; inversion Hb; subst; try reflexivity.
  - exfalso. eapply H3; eassumption.
  - exfalso. eapply Hno; eassumption.
  - now apply IH.
Qed.

Lemma doctor_type_cardiologist (reply : string) :
  occurs_ci "cardiologist" reply -> doctor_type_of reply = "Cardiologist".
Proof.
  intros Hocc. apply str_in_lower_iff in Hocc.
  unfold doctor_type_of. now rewrite Hocc.
Qed.

Lemma doctor_type_general (reply : string) :
  (forall keywords specialty keyword,
      In (keywords, specialty) keyword_table -> In keyword keywords ->
      ~ occurs_ci keyword reply) ->
  doctor_type_of reply = "General Physician".
Proof.
  intros Hno.
  assert (A : forall kws sp kw, In (kws, sp) keyword_table -> In kw kws ->
                                str_in kw (lower reply) = false).
  { intros kws sp kw H1 H2. apply str_in_lower_false. eapply Hno; eassumption. }
  unfold doctor_type_of.
  rewrite (A ["cardiologist"] "Cardiologist" "cardiologist") by (simpl; tauto).
  rewrite (A ["dermatologist"] "Dermatologist" "dermatologist") by (simpl; tauto).
  rewrite (A ["orthopedic"] "Orthopedic" "orthopedic") by (simpl; tauto).
  rewrite (A ["neurologist"] "Neurologist" "neurologist") by (simpl; tauto).
  rewrite (A ["ent"; "ear"] "ENT Specialist" "ent") by (simpl; tauto).
  rewrite (A ["ent"; "ear"] "ENT Specialist" "ear") by (simpl; tauto).
  rewrite (A ["pediatrician"] "Pediatrician" "pediatrician") by (simpl; tauto).
  reflexivity.
Qed.

Lemma doctor_type_ent (reply : string) :
  ~ occurs_ci "cardiologist" reply ->
  ~ occurs_ci "dermatologist" reply ->
  ~ occurs_ci "orthopedic" reply ->
  ~ occurs_ci "neurologist" reply ->
  occurs_ci "ent" reply ->
  doctor_type_of reply = "ENT Specialist".
Proof.
  intros H1 H2 H3 H4 H5.
  apply str_in_lower_false in H1, H2, H3, H4. apply str_in_lower_iff in H5.
  unfold doctor_type_of. now rewrite H1, H2, H3, H4, H5.
Qed.

(** ** Nearby doctors *)

Lemma append_loop (location : string) (chunks : list types.GroundingChunk)
      (acc : list doctor_info) :
  fold_left
    (fun nearby_doctors chunk =>
       match types.maps chunk with
       | Some maps => (nearby_doctors ++ [doctor_info_of location maps])%list
       | None => nearby_doctors
       end) chunks acc
  = (acc ++ map (doctor_info_of location)
       (flat_map (fun chunk => match types.maps chunk with
                               | Some maps => [maps]
                               | None => []
                               end) chunks))%list.
Proof.
  revert acc; induction chunks as [|chunk chunks IH]; intros acc; simpl.
  - now rewrite app_nil_r.
  - rewrite IH. destruct (types.maps chunk); simpl; [|reflexivity].
    now rewrite <- app_assoc.
Qed.

Lemma grounded_doctors_usable (location : string)
      (maps_response : types.GenerateContentResponse) :
  grounded_doctors location maps_response
  = map (doctor_info_of location) (usable_entries maps_response).
Proof.
  unfold grounded_doctors, usable_entries.
  destruct (types.candidates maps_response) as [[|candidate ?]|]; try reflexivity.
  destruct (types.grounding_metadata candidate) as [grounding|]; try reflexivity.
  destruct (types.grounding_chunks grounding) as [[|chunk chunks]|]; try reflexivity.
  cbv zeta. now rewrite append_loop.
Qed.

Lemma usable_entries_at_most_5 (maps_response : types.GenerateContentResponse) :
  List.length (usable_entries maps_response) <= 5.
Proof.
  assert (L : forall cs : list types.GroundingChunk,
             List.length
               (flat_map (fun chunk => match types.maps chunk with
                                       | Some maps => [maps]
                                       | None => []
                                       end) cs) <= List.length cs).
  { intros cs; induction cs as [|c cs IH]; [simpl; lia|].
    cbn [flat_map]. rewrite length_app.
    destruct (types.maps c); cbn [List.length]; lia. }
  unfold usable_entries.
  destruct (types.candidates maps_response) as [[|candidate ?]|];
    try (simpl; lia).
  destruct (types.grounding_metadata candidate) as [grounding|];
    try (simpl; lia).
  destruct (types.grounding_chunks grounding) as [chunks|]; [|simpl; lia].
  etransitivity; [apply L|]. rewrite length_firstn. lia.
Qed.

Lemma nearby_doctors_of_fallback doctor_type location maps_response :
  usable_entries maps_response = [] ->
  nearby_doctors_of doctor_type location maps_response
  = [fallback_doctor doctor_type location].
Proof.
  intros E. unfold nearby_doctors_of. now rewrite grounded_doctors_usable, E.
Qed.

Lemma nearby_doctors_of_grounded doctor_type location maps_response :
  usable_entries maps_response <> [] ->
  nearby_doctors_of doctor_type location maps_response
  = map (doctor_info_of location) (usable_entries maps_response).
Proof.
  intros N. unfold nearby_doctors_of. rewrite grounded_doctors_usable.
  destruct (usable_entries maps_response); [congruence | reflexivity].
Qed.

(** ** The extraction loop *)

Lemma last_cons {A} (x d : A) (l : list A) : last (x :: l) d = last l x.
Proof.
  revert x d; induction l as [|y l IH]; intros x d; [reflexivity|].
  change (last (x :: y :: l) d) with (last (y :: l) d).
  now rewrite !IH.
Qed.

(** No line starts with two labels. *)
Lemma labels_exclusive (line : string) :
  (startswith line "SYMPTOMS:" = true ->
   startswith line "LOCATION:" = false /\ startswith line "LATITUDE:" = false
   /\ startswith line "LONGITUDE:" = false)
  /\ (startswith line "LOCATION:" = true ->
      startswith line "LATITUDE:" = false /\ startswith line "LONGITUDE:" = false)
  /\ (startswith line "LATITUDE:" = true -> startswith line "LONGITUDE:" = false).
Proof.
  unfold startswith.
  repeat match goal with |- _ /\ _ => split end;
    intros P; apply prefix_iff in P; destruct P as [rest ->];
    repeat split; reflexivity.
Qed.

Section ExtractionFacts.
Context {rt : Runtime}.

Lemma scan_line_symptoms v line :
  Extracted.symptoms (scan_line v line)
  = if startswith (strip line) "SYMPTOMS:"
    then value_of "SYMPTOMS:" (strip line)
    else Extracted.symptoms v.
Proof.
  unfold scan_line, value_of.
  destruct (startswith (strip line) "SYMPTOMS:"); [reflexivity|].
  destruct (startswith (strip line) "LOCATION:"); [reflexivity|].
  destruct (startswith (strip line) "LATITUDE:");
    [destruct (py_float _); reflexivity|].
  destruct (startswith (strip line) "LONGITUDE:");
    [destruct (py_float _); reflexivity | reflexivity].
Qed.

Lemma scan_line_location v line :
  Extracted.location (scan_line v line)
  = if startswith (strip line) "LOCATION:"
    then value_of "LOCATION:" (strip line)
    else Extracted.location v.
Proof.
  destruct (labels_exclusive (strip line)) as (S1 & _).
  unfold scan_line, value_of.
  destruct (startswith (strip line) "SYMPTOMS:").
  { destruct S1 as (-> & _); reflexivity. }
  destruct (startswith (strip line) "LOCATION:"); [reflexivity|].
  destruct (startswith (strip line) "LATITUDE:");
    [destruct (py_float _); reflexivity|].
  destruct (startswith (strip line) "LONGITUDE:");
    [destruct (py_float _); reflexivity | reflexivity].
Qed.

Lemma scan_line_latitude v line :
  Extracted.latitude (scan_line v line)
  = if startswith (strip line) "LATITUDE:"
    then match py_float (value_of "LATITUDE:" (strip line)) with
         | Some x => x
         | None => Extracted.latitude v
         end
    else Extracted.latitude v.
Proof.
  destruct (labels_exclusive (strip line)) as (S1 & S2 & _).
  unfold scan_line, value_of.
  destruct (startswith (strip line) "SYMPTOMS:").
  { destruct S1 as (_ & -> & _); reflexivity. }
  destruct (startswith (strip line) "LOCATION:").
  { destruct S2 as (-> & _); reflexivity. }
  destruct (startswith (strip line) "LATITUDE:");
    [destruct (py_float _); reflexivity|].
  destruct (startswith (strip line) "LONGITUDE:");
    [destruct (py_float _); reflexivity | reflexivity].
Qed.

Lemma scan_line_longitude v line :
  Extracted.longitude (scan_line v line)
  = if startswith (strip line) "LONGITUDE:"
    then match py_float (value_of "LONGITUDE:" (strip line)) with
         | Some x => x
         | None => Extracted.longitude v
         end
    else Extracted.longitude v.
Proof.
  destruct (labels_exclusive (strip line)) as (S1 & S2 & S3).
  unfold scan_line, value_of.
  destruct (startswith (strip line) "SYMPTOMS:").
  { destruct S1 as (_ & _ & ->); reflexivity. }
  destruct (startswith (strip line) "LOCATION:").
  { destruct S2 as (_ & ->); reflexivity. }
  destruct (startswith (strip line) "LATITUDE:").
  { rewrite S3 by reflexivity. destruct (py_float _); reflexivity. }
  destruct (startswith (strip line) "LONGITUDE:");
    [destruct (py_float _); reflexivity | reflexivity].
Qed.

(** The loop, one variable at a time: the last labelled line wins. *)
Lemma loop_text (field : Extracted.vars -> string) (label : string) :
  (forall v line,
      field (scan_line v line)
      = if startswith (strip line) label
        then value_of label (strip line) else field v) ->
  forall lines v,
    field (fold_left scan_line lines v)
    = last (map (value_of label)
              (filter (fun line => startswith line label) (map strip lines)))
        (field v).
Proof.
  intros step lines; induction lines as [|line lines IH]; intros v;
    [reflexivity|].
  cbn [fold_left map filter]. rewrite IH, step.
  destruct (startswith (strip line) label); [|reflexivity].
  cbn [map]. now rewrite last_cons.
Qed.

Lemma loop_number (field : Extracted.vars -> float) (label : string) :
  (forall v line,
      field (scan_line v line)
      = if startswith (strip line) label
        then match py_float (value_of label (strip line)) with
             | Some x => x
             | None => field v
             end
        else field v) ->
  forall lines v,
    field (fold_left scan_line lines v)
    = last (flat_map
              (fun line => match py_float (value_of label line) with
                           | Some x => [x]
                           | None => []
                           end)
              (filter (fun line => startswith line label) (map strip lines)))
        (field v).
Proof.
  intros step lines; induction lines as [|line lines IH]; intros v;
    [reflexivity|].
  cbn [fold_left map filter]. rewrite IH, step.
  destruct (startswith (strip line) label); [|reflexivity].
  cbn [flat_map]. destruct (py_float (value_of label (strip line)));
    [|reflexivity].
  cbn [app]. now rewrite last_cons.
Qed.

Lemma no_numeric_value (label text : string) :
  (forall line, In line (labelled label text) ->
                py_float (value_of label line) = None) ->
  numeric label text = [].
Proof.
  unfold numeric. induction (labelled label text) as [|line lines IH];
    intros Hnone; [reflexivity|].
  cbn [flat_map]. rewrite (Hnone line) by now left.
  apply IH. intros l Hl. apply Hnone. now right.
Qed.

End ExtractionFacts.

(** ** Runs of the handlers *)

Ltac unfold_run :=
  unfold bind, ret, raise, lift, try_except, print, requests_post,
    generate_content in *.

Ltac log_done :=
  split; [ now rewrite <- ?app_assoc, ?app_nil_r
         | split; [ cbn; lia | reflexivity ] ].

Section Runs.
Context {rt : Runtime} (cfg : config).

(** Runs of the [try] block of [speech_to_text]: what it adds to the log. *)
Lemma speech_to_text_try_log audio w log log' r :
  speech_to_text_try cfg audio w log = (log', r) ->
  exists added,
    log' = (log ++ added)%list
    /\ outbound_calls added <= 1
    /\ stops_at_failure added = true.
Proof.
  unfold speech_to_text_try. unfold_run. intros R.
  destruct (read audio) as [e|audio_content].
  { injection R as <- <-. exists []. log_done. }
  destruct (sarvam w log (sarvam_request cfg audio audio_content)) as [e|response].
  { injection R as <- <-. eexists [_]. log_done. }
  exists [Post (sarvam_request cfg audio audio_content) (inr response)].
  destruct (negb (requests.status_code response =? 200)%Z).
  { injection R as <- <-. log_done. }
  destruct (requests.json response) as [e|result].
  { injection R as <- <-. log_done. }
  destruct (dict_get result "transcript" (JStr "")).
  { injection R as <- <-. log_done. }
  destruct (dict_get result "language_code" (JStr "en"));
    injection R as <- <-; log_done.
Qed.

(** A non-200 answer of Sarvam, seen from outside the handler. *)
Lemma speech_to_text_non_200 audio audio_content w log response :
  truthy (SARVAM_API_KEY cfg) = true ->
  read audio = inr audio_content ->
  sarvam w log (sarvam_request cfg audio audio_content) = inr response ->
  requests.status_code response <> 200%Z ->
  let raised :=
    HTTPException (requests.status_code response)
                  ("Sarvam API error: " ++ requests.text response) in
  speech_to_text cfg audio w log
  = ((log ++ [Post (sarvam_request cfg audio audio_content) (inr response);
              Print ("Speech to text error: " ++ str_exn raised)])%list,
     inl (HTTPException 500
            ("Failed to convert speech to text: " ++ str_exn raised))).
Proof.
  intros K R S N raised.
  unfold speech_to_text, speech_to_text_try, speech_to_text_except.
  rewrite K. unfold_run. cbn [negb]. rewrite R, S.
  apply Z.eqb_neq in N. rewrite N. cbn [negb].
  now rewrite <- app_assoc.
Qed.

(** A run of [find_doctor] that returns a body. *)
Lemma find_doctor_success request w log log' resp :
  find_doctor cfg request w log = (log', inr resp) ->
  exists r1 t1 r2 t2 r3,
    let v := parse_extraction t1 in
    let doctor_type := doctor_type_of t2 in
    types.text r1 = Some t1
    /\ types.text r2 = Some t2
    /\ log' =
         (log ++
            [ GenerateContent (extraction_request (input request)) (inr r1);
              GenerateContent
                (recommendation_request (Extracted.symptoms v)
                                        (Extracted.location v)) (inr r2);
              GenerateContent
                (maps_request doctor_type (Extracted.latitude v)
                              (Extracted.longitude v)) (inr r3) ])%list
    /\ resp =
         {| FindDoctor.success := true;
            FindDoctor.doctor_type := doctor_type;
            FindDoctor.recommendation := t2;
            FindDoctor.location := Extracted.location v;
            FindDoctor.symptoms := Extracted.symptoms v;
            FindDoctor.nearby_doctors :=
              nearby_doctors_of doctor_type (Extracted.location v) r3 |}.
Proof.
  unfold find_doctor, find_doctor_except, find_doctor_try,
    models_generate_content, gemini_client.
  destruct (negb (truthy (GEMINI_API_KEY cfg))); [discriminate|].
  destruct (GEMINI_API_KEY cfg) as [key|]; unfold_run; [|discriminate].
  destruct (gemini w log (extraction_request (input request))) as [e|r1];
    [discriminate|].
  destruct (types.text r1) as [t1|] eqn:T1; cbn [receiver]; [|discriminate].
  destruct (gemini w _ (recommendation_request _ _)) as [e|r2]; [discriminate|].
  destruct (types.text r2) as [t2|] eqn:T2; cbn [receiver]; [|discriminate].
  destruct (gemini w _ (maps_request _ _ _)) as [e|r3]; [discriminate|].
  intros [= <- <-]. exists r1, t1, r2, t2, r3. cbv zeta.
  split; [assumption|]. split; [assumption|]. split; [|reflexivity].
  now rewrite <- !app_assoc.
Qed.

(** Runs of the [try] block of [find_doctor]: what it adds to the log. *)
Lemma find_doctor_try_log request w log log' r :
  find_doctor_try cfg request w log = (log', r) ->
  exists added,
    log' = (log ++ added)%list
    /\ outbound_calls added <= 3
    /\ stops_at_failure added = true.
Proof.
  unfold find_doctor_try, models_generate_content.
  destruct (gemini_client cfg) as [client|]; unfold_run.
  2:{ intros [= <- <-]. exists []. log_done. }
  destruct (gemini w log (extraction_request (input request))) as [e|r1].
  { intros [= <- <-]. eexists [_]. log_done. }
  destruct (types.text r1) as [t1|]; cbn [receiver].
  2:{ intros [= <- <-]. eexists [_]. log_done. }
  destruct (gemini w _ (recommendation_request _ _)) as [e|r2].
  { intros [= <- <-]. eexists [_; _]. log_done. }
  destruct (types.text r2) as [t2|]; cbn [receiver].
  2:{ intros [= <- <-]. eexists [_; _]. log_done. }
  destruct (gemini w _ (maps_request _ _ _)) as [e|r3];
    intros [= <- <-]; eexists [_; _; _]; log_done.
Qed.

End Runs.

Lemma replace_space_plus (s : string) : replace s " " "+" = spaces_to_plus s.
Proof.
  unfold replace. induction s as [|c s IH]; [reflexivity|].
  cbn [replace_from spaces_to_plus prefix String.length Nat.sub].
  destruct (ascii_dec " " c) as [<-|N].
  - cbn [Ascii.eqb Bool.eqb]. rewrite IH. now destruct s.
  - rewrite IH. destruct (Ascii.eqb_spec c " "); [congruence | reflexivity].
Qed.

Lemma truthy_configured (key : option string) :
  truthy key = true <-> configured key.
Proof.
  unfold configured. destruct key as [[|c k]|]; simpl; split;
    try discriminate; try (intros (k' & E & N); congruence).
  intros _. eexists. split; [reflexivity | discriminate].
Qed.

Lemma not_configured_falsy (key : option string) :
  ~ configured key -> truthy key = false.
Proof.
  intros N. destruct (truthy key) eqn:T; [|reflexivity].
  now apply truthy_configured in T.
Qed.

Section Nearby.
Context {rt : Runtime} (cfg : config).

(** The list a successful run returns comes from the answer to its last
    call. *)
Lemma find_doctor_nearby request w log before req maps_response resp :
  find_doctor cfg request w log
  = ((before ++ [GenerateContent req (inr maps_response)])%list, inr resp) ->
  FindDoctor.nearby_doctors resp
  = nearby_doctors_of (FindDoctor.doctor_type resp) (FindDoctor.location resp)
      maps_response.
Proof.
  intros R. apply find_doctor_success in R.
  destruct R as (r1 & t1 & r2 & t2 & r3 & _ & _ & L & ->). cbv zeta in L.
  change (log ++ [?a; ?b; ?c])%list with (log ++ [a; b] ++ [c])%list in L.
  rewrite app_assoc in L. apply app_inj_tail in L. destruct L as [_ L].
  injection L as _ <-. reflexivity.
Qed.

Lemma find_doctor_last_call request w log log' resp :
  find_doctor cfg request w log = (log', inr resp) ->
  exists before req maps_response,
    log' = (before ++ [GenerateContent req (inr maps_response)])%list.
Proof.
  intros R. apply find_doctor_success in R.
  destruct R as (r1 & t1 & r2 & t2 & r3 & _ & _ & L & _). cbv zeta in L.
  change (log ++ [?a; ?b; ?c])%list with (log ++ [a; b] ++ [c])%list in L.
  rewrite app_assoc in L. eauto.
Qed.

Lemma find_doctor_classifies request w log log' resp :
  find_doctor cfg request w log = (log', inr resp) ->
  FindDoctor.doctor_type resp = doctor_type_of (FindDoctor.recommendation resp).
Proof.
  intros R. apply find_doctor_success in R.
  now destruct R as (r1 & t1 & r2 & t2 & r3 & _ & _ & _ & ->).
Qed.

End Nearby.

Lemma doctor_type_of_classified (reply : string) :
  classified_as reply (doctor_type_of reply).
Proof.
  split; [|split].
  - intros answer. split.
    + intros F. eapply first_match_unique; [exact F|].
      apply doctor_type_first_match.
    + intros ->. apply doctor_type_first_match.
  - apply doctor_type_cardiologist.
  - apply doctor_type_general.
Qed.

(** A run of [find_doctor] in which Gemini answers the three calls. *)
Lemma find_doctor_runs (rt : Runtime) cfg request w log r1 t1 r2 t2 r3 :
  let v := parse_extraction t1 in
  let doctor_type := doctor_type_of t2 in
  let q1 := extraction_request (input request) in
  let q2 := recommendation_request (Extracted.symptoms v)
                                   (Extracted.location v) in
  let q3 := maps_request doctor_type (Extracted.latitude v)
                         (Extracted.longitude v) in
  configured (GEMINI_API_KEY cfg) ->
  gemini w log q1 = inr r1 ->
  types.text r1 = Some t1 ->
  gemini w (log ++ [GenerateContent q1 (inr r1)])%list q2 = inr r2 ->
  types.text r2 = Some t2 ->
  gemini w (log ++ [GenerateContent q1 (inr r1);
                    GenerateContent q2 (inr r2)])%list q3 = inr r3 ->
  find_doctor cfg request w log
  = ((log ++ [GenerateContent q1 (inr r1);
              GenerateContent q2 (inr r2);
              GenerateContent q3 (inr r3)])%list,
     inr {| FindDoctor.success := true;
            FindDoctor.doctor_type := doctor_type;
            FindDoctor.recommendation := t2;
            FindDoctor.location := Extracted.location v;
            FindDoctor.symptoms := Extracted.symptoms v;
            FindDoctor.nearby_doctors :=
              nearby_doctors_of doctor_type (Extracted.location v) r3 |}).
Proof.
  intros v doctor_type q1 q2 q3 K G1 T1 G2 T2 G3.
  apply truthy_configured in K.
  unfold find_doctor, find_doctor_except, find_doctor_try,
    models_generate_content, gemini_client.
  rewrite K. cbn [negb].
  destruct (GEMINI_API_KEY cfg) as [key|]; [|discriminate].
  unfold_run. fold q1. rewrite G1, T1. cbn [receiver]. fold v. fold q2.
  rewrite G2, T2. cbn [receiver]. fold doctor_type. fold q3.
  rewrite <- app_assoc. cbn [app]. rewrite G3.
  now rewrite <- !app_assoc.
Qed.

(** * The claims *)

(** C1 (the handler misses it).  Sarvam answers a request made with a
    configured key with a status other than 200.  The handler raises its
    [HTTPException(status_code=response.status_code, ...)] inside the [try]
    block, the [except Exception] clause catches it, and the endpoint fails
    with status 500 whatever the provider's status was; that status and the
    response body appear at most in the detail, through [str(e)]. *)
Theorem non_200_surfaces_as_500
        (rt : Runtime) (cfg : config) (audio : UploadFile)
        (audio_content : string) (w : world) (log : list event)
        (response : requests.Response) :
  configured (SARVAM_API_KEY cfg) ->
  read audio = inr audio_content ->
  sarvam w log (sarvam_request cfg audio audio_content) = inr response ->
  requests.status_code response <> 200%Z ->
  let raised :=
    HTTPException (requests.status_code response)
                  ("Sarvam API error: " ++ requests.text response) in
  speech_to_text cfg audio w log
  = ((log ++ [Post (sarvam_request cfg audio audio_content) (inr response);
              Print ("Speech to text error: " ++ str_exn raised)])%list,
     inl (HTTPException 500
            ("Failed to convert speech to text: " ++ str_exn raised))).
Proof.
  intros K. apply truthy_configured in K. now apply speech_to_text_non_200.
Qed.

Lemma non_200_surfaces_as_500_witness :
  speech_to_text (rt := Sample.runtime) Sample.keys Sample.audio
                 (Sample.sarvam_answers Sample.not_found) []
  = ([ Post (sarvam_request Sample.keys Sample.audio "RIFF")
            (inr Sample.not_found);
       Print "Speech to text error: 404: Sarvam API error: Not Found" ],
     inl (HTTPException 500
            "Failed to convert speech to text: 404: Sarvam API error: Not Found")).
Proof.
  apply (non_200_surfaces_as_500
           Sample.runtime Sample.keys Sample.audio "RIFF"
           (Sample.sarvam_answers Sample.not_found) [] Sample.not_found).
  - exists "sarvam-key". split; [reflexivity | discriminate].
  - reflexivity.
  - reflexivity.
  - discriminate.
Defined.

(** C5.  When the Sarvam key is not configured (unset or empty),
    [/api/speech-to-text] fails with status 500 and the fixed configuration
    message, and when the Gemini key is not configured [/api/find-doctor]
    does: in both cases the log of effects is left as it was, so no outbound
    call was attempted, whatever the providers would have answered. *)
Theorem missing_key_fails_before_any_call
        (rt : Runtime) (cfg : config) (audio : UploadFile)
        (request : SymptomRequest) (w : world) (log : list event) :
  (~ configured (SARVAM_API_KEY cfg) ->
   speech_to_text cfg audio w log
   = (log, inl (HTTPException 500
        "Sarvam API key not configured. Please add SARVAM_API_KEY to .env file")))
  /\ (~ configured (GEMINI_API_KEY cfg) ->
      find_doctor cfg request w log
      = (log, inl (HTTPException 500
           "Gemini API key not configured. Please add GEMINI_API_KEY to .env file"))).
Proof.
  split; intros K; apply not_configured_falsy in K;
    [unfold speech_to_text | unfold find_doctor]; rewrite K; reflexivity.
Qed.

Lemma missing_key_fails_before_any_call_witness :
  speech_to_text (rt := Sample.runtime) Sample.no_keys Sample.audio
                 (Sample.sarvam_answers Sample.not_found) []
  = ([], inl (HTTPException 500
        "Sarvam API key not configured. Please add SARVAM_API_KEY to .env file"))
  /\ find_doctor (rt := Sample.runtime) Sample.no_keys {| input := "fever" |}
                 (Sample.sarvam_answers Sample.not_found) []
     = ([], inl (HTTPException 500
          "Gemini API key not configured. Please add GEMINI_API_KEY to .env file")).
Proof.
  destruct (missing_key_fails_before_any_call
              Sample.runtime Sample.no_keys Sample.audio {| input := "fever" |}
              (Sample.sarvam_answers Sample.not_found) []) as [S G].
  split; [apply S | apply G]; intros (k & E & N); simpl in E; congruence.
Defined.

(** C6.  With the key configured, an exception [e] (an instance of
    [Exception]) raised anywhere in the
    [try] block of either endpoint is caught by its [except Exception]
    clause: the endpoint prints it and fails with status 500 and a detail
    that ends in [str(e)], never returning a body.  Nothing is retried: the
    block made at most one outbound call (speech) or three (find-doctor), no
    call follows one that raised, and the clause adds no call. *)
Theorem exceptions_surface_as_500
        (rt : Runtime) (cfg : config) (w : world) (log log' : list event)
        (e : exn) :
  (forall audio,
      configured (SARVAM_API_KEY cfg) ->
      speech_to_text_try cfg audio w log = (log', inl e) ->
      speech_to_text cfg audio w log
      = ((log' ++ [Print ("Speech to text error: " ++ str_exn e)])%list,
         inl (HTTPException 500
                ("Failed to convert speech to text: " ++ str_exn e)))
      /\ exists added,
           log' = (log ++ added)%list /\ outbound_calls added <= 1
           /\ stops_at_failure added = true)
  /\ (forall request,
         configured (GEMINI_API_KEY cfg) ->
         find_doctor_try cfg request w log = (log', inl e) ->
         find_doctor cfg request w log
         = ((log' ++ [Print ("Error: " ++ str_exn e)])%list,
            inl (HTTPException 500
                   ("Failed to analyze symptoms: " ++ str_exn e)))
         /\ exists added,
              log' = (log ++ added)%list /\ outbound_calls added <= 3
              /\ stops_at_failure added = true).
Proof.
  split.
  - intros audio K T. split; [|eapply speech_to_text_try_log; eassumption].
    apply truthy_configured in K. unfold speech_to_text. rewrite K. cbn [negb]. unfold try_except.
    rewrite T. reflexivity.
  - intros request K T. split; [|eapply find_doctor_try_log; eassumption].
    apply truthy_configured in K. unfold find_doctor. rewrite K. cbn [negb]. unfold try_except.
    rewrite T. reflexivity.
Qed.

Lemma exceptions_surface_as_500_witness :
  (speech_to_text (rt := Sample.runtime) Sample.keys Sample.audio Sample.offline []
   = ([ Post (sarvam_request Sample.keys Sample.audio "RIFF")
             (inl Sample.unreachable);
        Print "Speech to text error: provider unreachable" ],
      inl (HTTPException 500
             "Failed to convert speech to text: provider unreachable")))
  /\ (find_doctor (rt := Sample.runtime) Sample.keys {| input := "fever" |}
                  Sample.offline []
      = ([ GenerateContent (extraction_request "fever") (inl Sample.unreachable);
           Print "Error: provider unreachable" ],
         inl (HTTPException 500
                "Failed to analyze symptoms: provider unreachable"))).
Proof.
  destruct (exceptions_surface_as_500
              Sample.runtime Sample.keys Sample.offline []
              [Post (sarvam_request Sample.keys Sample.audio "RIFF")
                    (inl Sample.unreachable)]
              Sample.unreachable) as [S _].
  destruct (exceptions_surface_as_500
              Sample.runtime Sample.keys Sample.offline []
              [GenerateContent (extraction_request "fever")
                               (inl Sample.unreachable)]
              Sample.unreachable) as [_ G].
  split.
  - apply (S Sample.audio); [|reflexivity].
    exists "sarvam-key". split; [reflexivity | discriminate].
  - apply (G {| input := "fever" |}); [|reflexivity].
    exists "gemini-key". split; [reflexivity | discriminate].
Defined.

(** C7.  [GET /api/health] returns, without touching the log of effects and
    whatever the providers are, a body whose [gemini_configured] and
    [sarvam_configured] are the truth values of the two keys: true exactly
    when the key is set to a non-empty string. *)
Theorem health_reports_configured_keys
        (cfg : config) (w : world) (log : list event) :
  health cfg w log
  = (log, inr {| Health.status := "healthy";
                 Health.message := "AayuCare POC API is running!";
                 Health.gemini_configured := truthy (GEMINI_API_KEY cfg);
                 Health.sarvam_configured := truthy (SARVAM_API_KEY cfg) |})
  /\ (truthy (GEMINI_API_KEY cfg) = true <-> configured (GEMINI_API_KEY cfg))
  /\ (truthy (SARVAM_API_KEY cfg) = true <-> configured (SARVAM_API_KEY cfg)).
Proof.
  split; [reflexivity|]. split; apply truthy_configured.
Qed.

(** C2.  The [doctor_type] [/api/find-doctor] returns is classified from
    the text of Gemini's second answer, the recommendation reply, and from
    nothing else.  In every run that returns a body, the second event of the
    run is a call Gemini answered with a text, the body's recommendation is
    that text, and the body's [doctor_type] is the specialty of the first
    row of the ordered keyword list (cardiologist, dermatologist,
    orthopedic, neurologist, ent/ear, pediatrician) one of whose keywords
    occurs in it as a substring with letter case ignored, "General
    Physician" when none occurs, and "Cardiologist" whenever "cardiologist"
    occurs in any letter case.  And every string is such a reply: when the
    key is configured and Gemini answers its first call with some text, its
    second with [reply] and its third at all, the endpoint returns a body
    whose recommendation is [reply] and whose [doctor_type] is classified
    from [reply] in that way. *)
Theorem doctor_type_is_first_keyword
        (rt : Runtime) (cfg : config) (request : SymptomRequest) (w : world)
        (log : list event) :
  (forall log' resp,
      find_doctor cfg request w log = (log', inr resp) ->
      exists call1 q2 r2 call3 reply,
        log' = (log ++ [call1; GenerateContent q2 (inr r2); call3])%list
        /\ types.text r2 = Some reply
        /\ FindDoctor.recommendation resp = reply
        /\ classified_as reply (FindDoctor.doctor_type resp))
  /\ (forall r1 t1 r2 reply r3,
         configured (GEMINI_API_KEY cfg) ->
         (forall q, gemini w log q = inr r1) ->
         types.text r1 = Some t1 ->
         (forall call1 q, gemini w (log ++ [call1])%list q = inr r2) ->
         types.text r2 = Some reply ->
         (forall call1 call2 q,
             gemini w (log ++ [call1; call2])%list q = inr r3) ->
         exists log' resp,
           find_doctor cfg request w log = (log', inr resp)
           /\ FindDoctor.recommendation resp = reply
           /\ classified_as reply (FindDoctor.doctor_type resp)).
Proof.
  split.
  - intros log' resp R. apply find_doctor_success in R.
    destruct R as (r1 & t1 & r2 & t2 & r3 & _ & T2 & -> & ->).
    cbv zeta. do 4 eexists. exists t2.
    split; [reflexivity|]. split; [exact T2|]. split; [reflexivity|].
    apply doctor_type_of_classified.
  - intros r1 t1 r2 reply r3 K G1 T1 G2 T2 G3. do 2 eexists.
    split; [|split].
    + apply (find_doctor_runs rt cfg request w log r1 t1 r2 reply r3);
        auto.
    + reflexivity.
    + apply doctor_type_of_classified.
Qed.

Lemma doctor_type_is_first_keyword_witness :
  exists log' resp,
    find_doctor (rt := Sample.runtime) Sample.keys
                {| input := "chest pain in Pune" |}
                (Sample.gemini_in_turn (Sample.reply Sample.pune)
                                       (Sample.reply Sample.heart)
                                       Sample.two_places) []
    = (log', inr resp)
    /\ FindDoctor.recommendation resp = Sample.heart
    /\ FindDoctor.doctor_type resp = "Cardiologist".
Proof.
  destruct (doctor_type_is_first_keyword
              Sample.runtime Sample.keys {| input := "chest pain in Pune" |}
              (Sample.gemini_in_turn (Sample.reply Sample.pune)
                                     (Sample.reply Sample.heart)
                                     Sample.two_places) []) as [_ F].
  destruct (F (Sample.reply Sample.pune) Sample.pune
              (Sample.reply Sample.heart) Sample.heart Sample.two_places)
    as (log' & resp & R & E & (_ & C & _)).
  - exists "gemini-key". split; [reflexivity | discriminate].
  - reflexivity.
  - reflexivity.
  - reflexivity.
  - reflexivity.
  - reflexivity.
  - exists log', resp. split; [exact R|]. split; [exact E|].
    apply C. apply str_in_lower_iff. reflexivity.
Defined.

(** C9.  In every run of [/api/find-doctor] that returns a body, when the
    recommendation reply contains none of cardiologist, dermatologist,
    orthopedic, neurologist (letter case ignored) but contains "ent"
    anywhere, also inside a longer word such as "patient" or "treatment",
    the [doctor_type] is "ENT Specialist". *)
Theorem ent_inside_a_word_gives_ENT
        (rt : Runtime) (cfg : config) (request : SymptomRequest) (w : world)
        (log log' : list event) (resp : FindDoctor.response) :
  find_doctor cfg request w log = (log', inr resp) ->
  let reply := FindDoctor.recommendation resp in
  ~ occurs_ci "cardiologist" reply ->
  ~ occurs_ci "dermatologist" reply ->
  ~ occurs_ci "orthopedic" reply ->
  ~ occurs_ci "neurologist" reply ->
  forall before hit after,
    reply = before ++ hit ++ after -> lower hit = "ent" ->
    FindDoctor.doctor_type resp = "ENT Specialist".
Proof.
  intros R reply N1 N2 N3 N4 before hit after E L.
  apply find_doctor_classifies in R. fold reply in R. rewrite R.
  apply doctor_type_ent; try assumption. now exists before, hit, after.
Qed.

Lemma ent_inside_a_word_gives_ENT_witness :
  FindDoctor.doctor_type
    {| FindDoctor.success := true;
       FindDoctor.doctor_type := doctor_type_of Sample.fever;
       FindDoctor.recommendation := Sample.fever;
       FindDoctor.location := "New Delhi";
       FindDoctor.symptoms := "General symptoms";
       FindDoctor.nearby_doctors :=
         [fallback_doctor (doctor_type_of Sample.fever) "New Delhi"] |}
  = "ENT Specialist".
Proof.
  apply (ent_inside_a_word_gives_ENT
           Sample.runtime Sample.keys {| input := "fever" |}
           (Sample.gemini_answers (Sample.reply Sample.new_delhi)
                                  (Sample.reply Sample.fever)
                                  Sample.ungrounded)
           [] _ _ eq_refl)
    with (before := "Doctor Type: General Physician" ++ nl ++ "Reason: The pati")
         (hit := "ent")
         (after := " needs treatment for fever.");
    try (apply str_in_lower_false; reflexivity); reflexivity.
Defined.

(** C3.  For every extraction reply the four variables are what a scan of
    the stripped lines for the exact (case-sensitive) prefixes SYMPTOMS:,
    LOCATION:, LATITUDE:, LONGITUDE: gives: the value after the label on the
    last such line, taken as it is, and for the two numbers the last value
    that [float] accepts.  So a variable keeps its default ("General
    symptoms", "Mumbai", 19.0760, 72.8777) when no line carries its label,
    and latitude and longitude also when none of their values is numeric. *)
Theorem extraction_keeps_defaults (rt : Runtime) (extraction_text : string) :
  let v := parse_extraction extraction_text in
  (Extracted.symptoms v
   = last (map (value_of "SYMPTOMS:") (labelled "SYMPTOMS:" extraction_text))
       "General symptoms"
   /\ Extracted.location v
      = last (map (value_of "LOCATION:") (labelled "LOCATION:" extraction_text))
          "Mumbai"
   /\ Extracted.latitude v
      = last (numeric "LATITUDE:" extraction_text) 19.0760%float
   /\ Extracted.longitude v
      = last (numeric "LONGITUDE:" extraction_text) 72.8777%float)
  /\ (labelled "SYMPTOMS:" extraction_text = [] ->
      Extracted.symptoms v = "General symptoms")
  /\ (labelled "LOCATION:" extraction_text = [] ->
      Extracted.location v = "Mumbai")
  /\ ((forall line, In line (labelled "LATITUDE:" extraction_text) ->
                    py_float (value_of "LATITUDE:" line) = None) ->
      Extracted.latitude v = 19.0760%float)
  /\ ((forall line, In line (labelled "LONGITUDE:" extraction_text) ->
                    py_float (value_of "LONGITUDE:" line) = None) ->
      Extracted.longitude v = 72.8777%float).
Proof.
  intros v.
  assert (S : Extracted.symptoms v
              = last (map (value_of "SYMPTOMS:")
                        (labelled "SYMPTOMS:" extraction_text))
                  "General symptoms")
    by apply (loop_text Extracted.symptoms "SYMPTOMS:" scan_line_symptoms).
  assert (L : Extracted.location v
              = last (map (value_of "LOCATION:")
                        (labelled "LOCATION:" extraction_text))
                  "Mumbai")
    by apply (loop_text Extracted.location "LOCATION:" scan_line_location).
  assert (A : Extracted.latitude v
              = last (numeric "LATITUDE:" extraction_text) 19.0760%float)
    by apply (loop_number Extracted.latitude "LATITUDE:" scan_line_latitude).
  assert (O : Extracted.longitude v
              = last (numeric "LONGITUDE:" extraction_text) 72.8777%float)
    by apply (loop_number Extracted.longitude "LONGITUDE:" scan_line_longitude).
  split; [now repeat split|]. repeat split.
  - intros E. now rewrite S, E.
  - intros E. now rewrite L, E.
  - intros E. now rewrite A, (no_numeric_value _ _ E).
  - intros E. now rewrite O, (no_numeric_value _ _ E).
Qed.

Lemma extraction_keeps_defaults_witness :
  parse_extraction (rt := Sample.runtime) Sample.new_delhi
  = {| Extracted.symptoms := "General symptoms";
       Extracted.location := "New Delhi";
       Extracted.latitude := 19.0760%float;
       Extracted.longitude := 72.8777%float |}.
Proof.
  destruct (extraction_keeps_defaults Sample.runtime Sample.new_delhi)
    as (_ & S & _ & A & O).
  specialize (S eq_refl).
  assert (A' := A ltac:(intros line [<-|[]]; reflexivity)).
  assert (O' := O ltac:(intros line [<-|[]]; reflexivity)).
  clear A O. cbv zeta in S, A', O'.
  destruct (parse_extraction (rt := Sample.runtime) Sample.new_delhi)
    as [s l a o] eqn:P.
  cbn [Extracted.symptoms Extracted.latitude Extracted.longitude] in S, A', O'.
  subst s a o. f_equal.
  change l with (Extracted.location
                   {| Extracted.symptoms := "General symptoms";
                      Extracted.location := l;
                      Extracted.latitude := 19.0760%float;
                      Extracted.longitude := 72.8777%float |}).
  rewrite <- P. reflexivity.
Defined.

(** C4.  In every run of [/api/find-doctor] that returns a body, when the
    maps response (the answer to the last call) has no usable grounding
    entry, [nearby_doctors] is exactly one entry, the fallback one, and its
    [url] is "https://www.google.com/maps/search/" followed by the doctor
    type, "+near+" and the location with every space turned into "+". *)
Theorem fallback_entry_without_grounding
        (rt : Runtime) (cfg : config) (request : SymptomRequest) (w : world)
        (log before : list event) (req : types.GenerateContentRequest)
        (maps_response : types.GenerateContentResponse)
        (resp : FindDoctor.response) :
  find_doctor cfg request w log
  = ((before ++ [GenerateContent req (inr maps_response)])%list, inr resp) ->
  usable_entries maps_response = [] ->
  FindDoctor.nearby_doctors resp
  = [fallback_doctor (FindDoctor.doctor_type resp) (FindDoctor.location resp)]
  /\ url (fallback_doctor (FindDoctor.doctor_type resp)
                          (FindDoctor.location resp))
     = Some (search_url (FindDoctor.doctor_type resp)
                        (FindDoctor.location resp)).
Proof.
  intros R E. split.
  - rewrite (find_doctor_nearby _ _ _ _ _ _ _ _ R).
    now apply nearby_doctors_of_fallback.
  - unfold fallback_doctor, search_url. cbn [url].
    now rewrite replace_space_plus.
Qed.

Lemma fallback_entry_without_grounding_witness :
  exists resp,
    snd (Sample.visit "fever" (Sample.reply Sample.new_delhi)
                      (Sample.reply Sample.fever) Sample.ungrounded)
    = inr resp
    /\ FindDoctor.nearby_doctors resp
       = [fallback_doctor "ENT Specialist" "New Delhi"]
    /\ url (fallback_doctor "ENT Specialist" "New Delhi")
       = Some "https://www.google.com/maps/search/ENT Specialist+near+New+Delhi".
Proof.
  edestruct (fallback_entry_without_grounding
               Sample.runtime Sample.keys {| input := "fever" |}
               (Sample.gemini_answers (Sample.reply Sample.new_delhi)
                                      (Sample.reply Sample.fever)
                                      Sample.ungrounded)
               []
               (Sample.earlier "fever" (Sample.reply Sample.new_delhi)
                               (Sample.reply Sample.fever) Sample.ungrounded))
    as [N U]; [reflexivity | reflexivity |].
  eexists. split; [reflexivity|]. split; [exact N | exact U].
Defined.

(** C8, as the specification states it, fails: the address of an extracted
    entry is not a constant of the program.  One maps response gives entries
    with address "Pune" for location "Pune" and "New Delhi" for location
    "New Delhi". *)
Lemma address_is_not_hardcoded : ~ placeholders_hardcoded.
Proof.
  intros (a & d & r & o & Hc).
  destruct (Hc "Pune" Sample.two_places
               (doctor_info_of "Pune"
                  {| types.title := Attr (Some "City Heart Clinic");
                     types.uri := Attr (Some "https://maps.google.com/?cid=1") |}))
    as (A1 & _); [left; reflexivity|].
  destruct (Hc "New Delhi" Sample.two_places
               (doctor_info_of "New Delhi"
                  {| types.title := Attr (Some "City Heart Clinic");
                     types.uri := Attr (Some "https://maps.google.com/?cid=1") |}))
    as (A2 & _); [left; reflexivity|].
  cbn [doctor_info_of address] in A1, A2. congruence.
Qed.

(** C8, amended.  In every run of [/api/find-doctor] that returns a body,
    when the maps response has usable grounding entries, [nearby_doctors]
    has one entry for each of them, in their order and at most 5: its name
    is the grounding title ("Medical Center" when the attribute is missing),
    its url the grounding URI ("" when missing), its address the location
    extracted for the request, and its distance, rating and hours the
    constants "See Google Maps", 4.5 and "See Google Maps for hours". *)
Theorem grounded_entries_and_placeholders
        (rt : Runtime) (cfg : config) (request : SymptomRequest) (w : world)
        (log before : list event) (req : types.GenerateContentRequest)
        (maps_response : types.GenerateContentResponse)
        (resp : FindDoctor.response) :
  find_doctor cfg request w log
  = ((before ++ [GenerateContent req (inr maps_response)])%list, inr resp) ->
  usable_entries maps_response <> [] ->
  FindDoctor.nearby_doctors resp
  = map (fun maps =>
           {| name := attr_or (types.title maps) "Medical Center";
              address := FindDoctor.location resp;
              distance := "See Google Maps";
              rating := Float 4.5%float;
              open := "See Google Maps for hours";
              url := attr_or (types.uri maps) "" |})
        (usable_entries maps_response)
  /\ List.length (FindDoctor.nearby_doctors resp) <= 5.
Proof.
  intros R N. rewrite (find_doctor_nearby _ _ _ _ _ _ _ _ R).
  rewrite (nearby_doctors_of_grounded _ _ _ N). split; [reflexivity|].
  rewrite length_map. apply usable_entries_at_most_5.
Qed.

Lemma grounded_entries_and_placeholders_witness :
  exists resp,
    snd (Sample.visit "chest pain in Pune" (Sample.reply Sample.pune)
                      (Sample.reply Sample.heart) Sample.two_places)
    = inr resp
    /\ map (fun entry => (name entry, address entry, url entry))
           (FindDoctor.nearby_doctors resp)
       = [ (Some "City Heart Clinic", "Pune",
            Some "https://maps.google.com/?cid=1");
           (Some "Sahyadri Hospital", "Pune",
            Some "https://maps.google.com/?cid=2") ].
Proof.
  edestruct (grounded_entries_and_placeholders
               Sample.runtime Sample.keys {| input := "chest pain in Pune" |}
               (Sample.gemini_answers (Sample.reply Sample.pune)
                                      (Sample.reply Sample.heart)
                                      Sample.two_places)
               []
               (Sample.earlier "chest pain in Pune" (Sample.reply Sample.pune)
                               (Sample.reply Sample.heart) Sample.two_places))
    as [N _]; [reflexivity | discriminate |].
  eexists. split; [reflexivity|].
  exact (f_equal (map (fun entry => (name entry, address entry, url entry))) N).
Defined.

(** C10.  In every run of [/api/find-doctor] that returns a body,
    [nearby_doctors] has between 1 and 5 entries: with [maps_response] the
    answer to the run's last call, either it has usable grounding entries
    and the list is the 1 to 5 entries extracted from them, or it has none
    and the list is the single fallback entry. *)
Theorem nearby_doctors_between_1_and_5
        (rt : Runtime) (cfg : config) (request : SymptomRequest) (w : world)
        (log log' : list event) (resp : FindDoctor.response) :
  find_doctor cfg request w log = (log', inr resp) ->
  1 <= List.length (FindDoctor.nearby_doctors resp) <= 5
  /\ exists before req maps_response,
       log' = (before ++ [GenerateContent req (inr maps_response)])%list
       /\ ((1 <= List.length (usable_entries maps_response) <= 5
            /\ FindDoctor.nearby_doctors resp
               = map (doctor_info_of (FindDoctor.location resp))
                     (usable_entries maps_response))
           \/ (usable_entries maps_response = []
               /\ FindDoctor.nearby_doctors resp
                  = [fallback_doctor (FindDoctor.doctor_type resp)
                                     (FindDoctor.location resp)])).
Proof.
  intros R.
  destruct (find_doctor_last_call _ _ _ _ _ _ R)
    as (before & req & maps_response & ->).
  pose proof (find_doctor_nearby _ _ _ _ _ _ _ _ R) as N.
  pose proof (usable_entries_at_most_5 maps_response) as B.
  destruct (usable_entries maps_response) as [|maps rest] eqn:U.
  - rewrite (nearby_doctors_of_fallback _ _ _ U) in N. rewrite N.
    split; [simpl; lia|]. exists before, req, maps_response.
    split; [reflexivity|]. right. rewrite U. now split.
  - rewrite nearby_doctors_of_grounded in N by (rewrite U; discriminate).
    rewrite N, U, length_map. cbn [List.length] in *.
    split; [lia|]. exists before, req, maps_response.
    split; [reflexivity|]. left. rewrite U. cbn [List.length]. split; [lia|].
    reflexivity.
Qed.

Lemma nearby_doctors_between_1_and_5_witness :
  exists resp,
    snd (Sample.visit "fever" (Sample.reply Sample.new_delhi)
                      (Sample.reply Sample.rest) Sample.seven_places)
    = inr resp
    /\ 1 <= List.length (FindDoctor.nearby_doctors resp) <= 5.
Proof.
  edestruct (nearby_doctors_between_1_and_5
               Sample.runtime Sample.keys {| input := "fever" |}
               (Sample.gemini_answers (Sample.reply Sample.new_delhi)
                                      (Sample.reply Sample.rest)
                                      Sample.seven_places)
               []) as [B _]; [reflexivity|].
  eexists. split; [reflexivity | exact B].
Defined.

(** * Further properties *)

(** ** The transcription relay *)

(** X1.  [/api/speech-to-text] returns a body exactly when the Sarvam key is
    configured, the upload can be read, Sarvam answers the one POST (which
    carries the uploaded bytes as they were read) with status 200, and the
    JSON of the answer is an object.  The body then has [success] true, the
    object's "transcript" ("" when absent) as text and its "language_code"
    ("en" when absent) as language, and that POST is the only effect. *)
Theorem speech_to_text_returns_the_transcript
        (rt : Runtime) (cfg : config) (audio : UploadFile) (w : world)
        (log log' : list event) (body : SpeechToText.response) :
  speech_to_text cfg audio w log = (log', inr body)
  <-> exists audio_content response fields,
        configured (SARVAM_API_KEY cfg)
        /\ read audio = inr audio_content
        /\ sarvam w log (sarvam_request cfg audio audio_content) = inr response
        /\ requests.status_code response = 200%Z
        /\ requests.json response = inr (JObj fields)
        /\ log' = (log ++ [Post (sarvam_request cfg audio audio_content)
                                (inr response)])%list
        /\ body = {| SpeechToText.success := true;
                     SpeechToText.text :=
                       match lookup "transcript" fields with
                       | Some v => v
                       | None => JStr ""
                       end;
                     SpeechToText.language :=
                       match lookup "language_code" fields with
                       | Some v => v
                       | None => JStr "en"
                       end |}.
Proof.
  unfold speech_to_text, speech_to_text_except, speech_to_text_try. split.
  - destruct (truthy (SARVAM_API_KEY cfg)) eqn:K; cbn [negb]; unfold_run;
      [|discriminate].
    apply truthy_configured in K.
    destruct (read audio) as [e|audio_content] eqn:R; [discriminate|].
    destruct (sarvam w log (sarvam_request cfg audio audio_content))
      as [e|response] eqn:S; [discriminate|].
    destruct (requests.status_code response =? 200)%Z eqn:C; cbn [negb];
      [|discriminate].
    apply Z.eqb_eq in C.
    destruct (requests.json response) as [e|[| | | | |fields]] eqn:J;
      try discriminate.
    cbn [dict_get]. intros [= <- <-].
    exists audio_content, response, fields. now repeat split.
  - intros (audio_content & response & fields & K & R & S & C & J & -> & ->).
    apply truthy_configured in K. rewrite K. cbn [negb]. unfold_run.
    rewrite R, S, C, J. reflexivity.
Qed.

Lemma speech_to_text_returns_the_transcript_witness :
  speech_to_text (rt := Sample.runtime) Sample.keys Sample.audio
                 (Sample.sarvam_answers More.transcribed) []
  = ([Post (sarvam_request Sample.keys Sample.audio "RIFF")
           (inr More.transcribed)],
     inr {| SpeechToText.success := true;
            SpeechToText.text := JStr "I have had a fever for two days";
            SpeechToText.language := JStr "hi-IN" |}).
Proof.
  apply (proj2 (speech_to_text_returns_the_transcript
                  Sample.runtime Sample.keys Sample.audio
                  (Sample.sarvam_answers More.transcribed) [] _ _)).
  exists "RIFF", More.transcribed,
    [("transcript", JStr "I have had a fever for two days");
     ("language_code", JStr "hi-IN")].
  repeat split. exists "sarvam-key". split; [reflexivity | discriminate].
Defined.

(** X2.  A 200 answer of Sarvam that cannot be used is a 500 of the
    endpoint: when [response.json()] raises [e] the detail ends in [str(e)],
    and when the JSON is no object (an array, a string, a number, null) the
    detail reports that the value has no attribute 'get'. *)
Theorem unusable_transcription_is_a_500
        (rt : Runtime) (cfg : config) (audio : UploadFile)
        (audio_content : string) (w : world) (log : list event)
        (response : requests.Response) :
  configured (SARVAM_API_KEY cfg) ->
  read audio = inr audio_content ->
  sarvam w log (sarvam_request cfg audio audio_content) = inr response ->
  requests.status_code response = 200%Z ->
  let failure (msg : string) :=
    ((log ++ [Post (sarvam_request cfg audio audio_content) (inr response);
              Print ("Speech to text error: " ++ msg)])%list,
     @inl exn SpeechToText.response
          (HTTPException 500 ("Failed to convert speech to text: " ++ msg))) in
  (forall e, requests.json response = inl e ->
             speech_to_text cfg audio w log = failure (str_exn e))
  /\ (forall v, requests.json response = inr v ->
                (forall fields, v <> JObj fields) ->
                speech_to_text cfg audio w log
                = failure ("'" ++ type_name v
                           ++ "' object has no attribute 'get'")).
Proof.
  intros K R S C failure. apply truthy_configured in K.
  unfold speech_to_text, speech_to_text_except, speech_to_text_try, failure.
  rewrite K. cbn [negb]. unfold_run. rewrite R, S, C, Z.eqb_refl.
  cbn [negb]. split.
  - intros e ->. now rewrite <- app_assoc.
  - intros v -> N.
    destruct v as [| | [|] | | |fields];
      try (cbn [dict_get]; now rewrite <- app_assoc).
    now destruct (N fields).
Qed.

Lemma unusable_transcription_is_a_500_witness :
  speech_to_text (rt := Sample.runtime) Sample.keys Sample.audio
                 (Sample.sarvam_answers More.array_body) []
  = ([Post (sarvam_request Sample.keys Sample.audio "RIFF")
           (inr More.array_body);
      Print "Speech to text error: 'list' object has no attribute 'get'"],
     inl (HTTPException 500
            "Failed to convert speech to text: 'list' object has no attribute 'get'")).
Proof.
  assert (K : configured (SARVAM_API_KEY Sample.keys)).
  { exists "sarvam-key". split; [reflexivity | discriminate]. }
  destruct (unusable_transcription_is_a_500
              Sample.runtime Sample.keys Sample.audio "RIFF"
              (Sample.sarvam_answers More.array_body) [] More.array_body
              K eq_refl eq_refl eq_refl)
    as [_ V].
  apply (V (JArr [])); [reflexivity | discriminate].
Defined.

(** ** Both endpoints *)

(** X3.  Neither endpoint ever fails with a status other than 500, whatever
    the keys, the request and the providers' behaviour are: when an endpoint
    fails, its status is 500 whatever status a provider answered with. *)
Theorem endpoints_fail_only_with_500
        (rt : Runtime) (cfg : config) (w : world) (log log' : list event)
        (err : exn) :
  (forall audio,
      speech_to_text cfg audio w log = (log', inl err) ->
      exists detail, err = HTTPException 500 detail)
  /\ (forall request,
         find_doctor cfg request w log = (log', inl err) ->
         exists detail, err = HTTPException 500 detail).
Proof.
  split.
  - intros audio. unfold speech_to_text, speech_to_text_except.
    destruct (negb (truthy (SARVAM_API_KEY cfg))); unfold_run.
    + intros [= _ <-]. eauto.
    + destruct (speech_to_text_try cfg audio w log) as [l [e|body]];
        [|discriminate].
      intros [= _ <-]. eauto.
  - intros request. unfold find_doctor, find_doctor_except.
    destruct (negb (truthy (GEMINI_API_KEY cfg))); unfold_run.
    + intros [= _ <-]. eauto.
    + destruct (find_doctor_try cfg request w log) as [l [e|body]];
        [|discriminate].
      intros [= _ <-]. eauto.
Qed.

Lemma endpoints_fail_only_with_500_witness :
  exists detail,
    HTTPException 500
      "Failed to convert speech to text: 404: Sarvam API error: Not Found"
    = HTTPException 500 detail.
Proof.
  destruct (endpoints_fail_only_with_500
              Sample.runtime Sample.keys
              (Sample.sarvam_answers Sample.not_found) []
              [Post (sarvam_request Sample.keys Sample.audio "RIFF")
                    (inr Sample.not_found);
               Print "Speech to text error: 404: Sarvam API error: Not Found"]
              (HTTPException 500
                 "Failed to convert speech to text: 404: Sarvam API error: Not Found"))
    as [S _].
  exact (S Sample.audio eq_refl).
Defined.

Lemma speech_to_text_try_posts cfg audio w log log' r :
  speech_to_text_try cfg audio w log = (log', r) ->
  exists added, log' = (log ++ added)%list /\ forallb is_post added = true.
Proof.
  unfold speech_to_text_try. unfold_run. intros R.
  destruct (read audio) as [e|audio_content].
  { injection R as <- <-. exists []. now rewrite app_nil_r. }
  exists [Post (sarvam_request cfg audio audio_content)
               (sarvam w log (sarvam_request cfg audio audio_content))].
  split; [|reflexivity].
  destruct (sarvam w log (sarvam_request cfg audio audio_content))
    as [e|response]; [now injection R as <- <-|].
  destruct (negb (requests.status_code response =? 200)%Z);
    [now injection R as <- <-|].
  destruct (requests.json response) as [e|result]; [now injection R as <- <-|].
  destruct (dict_get result "transcript" (JStr ""));
    [now injection R as <- <-|].
  destruct (dict_get result "language_code" (JStr "en"));
    now injection R as <- <-.
Qed.

Lemma find_doctor_try_generates (rt : Runtime) cfg request w log log' r :
  find_doctor_try cfg request w log = (log', r) ->
  exists added,
    log' = (log ++ added)%list /\ forallb is_generate_content added = true.
Proof.
  unfold find_doctor_try, models_generate_content.
  destruct (gemini_client cfg) as [client|]; unfold_run.
  2:{ intros [= <- <-]. exists []. now rewrite app_nil_r. }
  destruct (gemini w log (extraction_request (input request))) as [e|r1].
  { intros [= <- <-]. now eexists [_]. }
  destruct (types.text r1) as [t1|]; cbn [receiver].
  2:{ intros [= <- <-]. now eexists [_]. }
  destruct (gemini w _ (recommendation_request _ _)) as [e|r2].
  { intros [= <- <-]. eexists [_; _]. now rewrite <- app_assoc. }
  destruct (types.text r2) as [t2|]; cbn [receiver].
  2:{ intros [= <- <-]. eexists [_; _]. now rewrite <- app_assoc. }
  destruct (gemini w _ (maps_request _ _ _)) as [e|r3];
    intros [= <- <-]; eexists [_; _; _]; now rewrite <- !app_assoc.
Qed.

(** X4.  Each endpoint keeps to its own provider and only adds to the log
    of effects: every run of [/api/speech-to-text] adds POSTs to Sarvam and
    at most a final print and never calls Gemini; every run of
    [/api/find-doctor] adds [generate_content] calls and at most a final
    print and never posts to Sarvam; a run that returns a body printed
    nothing. *)
Theorem endpoints_keep_to_their_provider
        (rt : Runtime) (cfg : config) (w : world) (log : list event) :
  (forall audio log' r,
      speech_to_text cfg audio w log = (log', r) ->
      exists calls,
        forallb is_post calls = true
        /\ match r with
           | inr _ => log' = (log ++ calls)%list
           | inl _ => log' = (log ++ calls)%list
                      \/ exists msg, log' = (log ++ calls ++ [Print msg])%list
           end)
  /\ (forall request log' r,
         find_doctor cfg request w log = (log', r) ->
         exists calls,
           forallb is_generate_content calls = true
           /\ match r with
              | inr _ => log' = (log ++ calls)%list
              | inl _ => log' = (log ++ calls)%list
                         \/ exists msg, log' = (log ++ calls ++ [Print msg])%list
              end).
Proof.
  split.
  - intros audio log' r. unfold speech_to_text, speech_to_text_except.
    destruct (negb (truthy (SARVAM_API_KEY cfg))).
    { unfold_run. intros [= <- <-]. exists []. split; [reflexivity|].
      left. now rewrite app_nil_r. }
    unfold try_except.
    destruct (speech_to_text_try cfg audio w log) as [l [e|body]] eqn:T;
      apply speech_to_text_try_posts in T; destruct T as (calls & -> & P);
      unfold_run; intros [= <- <-]; exists calls; split; try assumption;
      try reflexivity.
    right. eexists. now rewrite app_assoc.
  - intros request log' r. unfold find_doctor, find_doctor_except.
    destruct (negb (truthy (GEMINI_API_KEY cfg))).
    { unfold_run. intros [= <- <-]. exists []. split; [reflexivity|].
      left. now rewrite app_nil_r. }
    unfold try_except.
    destruct (find_doctor_try cfg request w log) as [l [e|body]] eqn:T;
      apply find_doctor_try_generates in T; destruct T as (calls & -> & P);
      unfold_run; intros [= <- <-]; exists calls; split; try assumption;
      try reflexivity.
    right. eexists. now rewrite app_assoc.
Qed.

Lemma endpoints_keep_to_their_provider_witness :
  exists calls,
    forallb is_generate_content calls = true
    /\ ([GenerateContent (extraction_request "fever") (inl Sample.unreachable);
         Print "Error: provider unreachable"]
        = ([] ++ calls)%list
        \/ exists msg,
            [GenerateContent (extraction_request "fever")
                             (inl Sample.unreachable);
             Print "Error: provider unreachable"]
            = ([] ++ calls ++ [Print msg])%list).
Proof.
  destruct (endpoints_keep_to_their_provider
              Sample.runtime Sample.keys Sample.offline []) as [_ G].
  exact (G {| input := "fever" |} _ (inl _) eq_refl).
Defined.

(** ** The symptom endpoint *)

(** X5.  [/api/find-doctor] returns a body exactly when the Gemini key is
    configured and Gemini answers three calls in a row, the first two with
    a text: the extraction prompt for the user's input, the recommendation
    prompt for the symptoms and location parsed from the first text, and
    the maps prompt for the doctor type classified from the second text,
    positioned at the parsed latitude and longitude.  Those three calls are
    the only effects, and the body is composed of the parsed symptoms and
    location, the second text unchanged as recommendation, and the nearby
    doctors read from the third answer, whatever that answer holds. *)
Theorem find_doctor_composes_three_calls
        (rt : Runtime) (cfg : config) (request : SymptomRequest) (w : world)
        (log log' : list event) (resp : FindDoctor.response) :
  find_doctor cfg request w log = (log', inr resp)
  <-> exists r1 t1 r2 t2 r3,
        let v := parse_extraction t1 in
        let doctor_type := doctor_type_of t2 in
        let q1 := extraction_request (input request) in
        let q2 := recommendation_request (Extracted.symptoms v)
                                         (Extracted.location v) in
        let q3 := maps_request doctor_type (Extracted.latitude v)
                               (Extracted.longitude v) in
        configured (GEMINI_API_KEY cfg)
        /\ gemini w log q1 = inr r1
        /\ types.text r1 = Some t1
        /\ gemini w (log ++ [GenerateContent q1 (inr r1)])%list q2 = inr r2
        /\ types.text r2 = Some t2
        /\ gemini w (log ++ [GenerateContent q1 (inr r1);
                             GenerateContent q2 (inr r2)])%list q3 = inr r3
        /\ log' = (log ++ [GenerateContent q1 (inr r1);
                           GenerateContent q2 (inr r2);
                           GenerateContent q3 (inr r3)])%list
        /\ resp = {| FindDoctor.success := true;
                     FindDoctor.doctor_type := doctor_type;
                     FindDoctor.recommendation := t2;
                     FindDoctor.location := Extracted.location v;
                     FindDoctor.symptoms := Extracted.symptoms v;
                     FindDoctor.nearby_doctors :=
                       nearby_doctors_of doctor_type (Extracted.location v)
                                         r3 |}.
Proof.
  unfold find_doctor, find_doctor_except, find_doctor_try,
    models_generate_content, gemini_client.
  split.
  - destruct (truthy (GEMINI_API_KEY cfg)) eqn:K; cbn [negb];
      [|discriminate].
    apply truthy_configured in K.
    destruct (GEMINI_API_KEY cfg) as [key|]; unfold_run; [|discriminate].
    destruct (gemini w log (extraction_request (input request)))
      as [e|r1] eqn:G1; [discriminate|].
    destruct (types.text r1) as [t1|] eqn:T1; cbn [receiver]; [|discriminate].
    destruct (gemini w _ (recommendation_request _ _)) as [e|r2] eqn:G2;
      [discriminate|].
    destruct (types.text r2) as [t2|] eqn:T2; cbn [receiver]; [|discriminate].
    destruct (gemini w _ (maps_request _ _ _)) as [e|r3] eqn:G3;
      [discriminate|].
    intros [= <- <-]. exists r1, t1, r2, t2, r3. cbv zeta.
    rewrite <- app_assoc in G3. rewrite <- !app_assoc.
    repeat split; assumption.
  - intros (r1 & t1 & r2 & t2 & r3 & K & G1 & T1 & G2 & T2 & G3 & -> & ->).
    apply truthy_configured in K. rewrite K. cbn [negb].
    destruct (GEMINI_API_KEY cfg) as [key|]; [|discriminate].
    unfold_run. rewrite G1, T1. cbn [receiver]. rewrite G2, T2.
    cbn [receiver]. rewrite <- app_assoc. cbn [app]. rewrite G3.
    now rewrite <- !app_assoc.
Qed.

Lemma find_doctor_composes_three_calls_witness :
  exists log',
    Sample.visit "chest pain in Pune" (Sample.reply Sample.pune)
                 (Sample.reply Sample.heart) Sample.ungrounded
    = (log',
       inr {| FindDoctor.success := true;
              FindDoctor.doctor_type := "Cardiologist";
              FindDoctor.recommendation := Sample.heart;
              FindDoctor.location := "Pune";
              FindDoctor.symptoms := "chest pain";
              FindDoctor.nearby_doctors :=
                [fallback_doctor "Cardiologist" "Pune"] |}).
Proof.
  eexists.
  apply (proj2 (find_doctor_composes_three_calls
                  Sample.runtime Sample.keys
                  {| input := "chest pain in Pune" |}
                  (Sample.gemini_answers (Sample.reply Sample.pune)
                                         (Sample.reply Sample.heart)
                                         Sample.ungrounded) [] _ _)).
  exists (Sample.reply Sample.pune), Sample.pune,
    (Sample.reply Sample.heart), Sample.heart, Sample.ungrounded.
  cbv zeta. repeat split.
  exists "gemini-key". split; [reflexivity | discriminate].
Defined.

(** X6.  A Gemini answer without text is a 500 of [/api/find-doctor]: after
    the first call the detail reports that 'NoneType' has no attribute
    'split', after the second that it has no attribute 'lower'; in both
    cases no further call is made. *)
Theorem reply_without_text_is_a_500
        (rt : Runtime) (cfg : config) (request : SymptomRequest) (w : world)
        (log : list event) (r1 : types.GenerateContentResponse) :
  configured (GEMINI_API_KEY cfg) ->
  gemini w log (extraction_request (input request)) = inr r1 ->
  let call1 := GenerateContent (extraction_request (input request)) (inr r1) in
  let failure (calls : list event) (msg : string) :=
    ((log ++ calls ++ [Print ("Error: " ++ msg)])%list,
     @inl exn FindDoctor.response
          (HTTPException 500 ("Failed to analyze symptoms: " ++ msg))) in
  (types.text r1 = None ->
   find_doctor cfg request w log
   = failure [call1] "'NoneType' object has no attribute 'split'")
  /\ (forall t1 r2,
         types.text r1 = Some t1 ->
         let q2 := recommendation_request
                     (Extracted.symptoms (parse_extraction t1))
                     (Extracted.location (parse_extraction t1)) in
         gemini w (log ++ [call1])%list q2 = inr r2 ->
         types.text r2 = None ->
         find_doctor cfg request w log
         = failure [call1; GenerateContent q2 (inr r2)]
                   "'NoneType' object has no attribute 'lower'").
Proof.
  intros K G1 call1 failure. apply truthy_configured in K.
  unfold find_doctor, find_doctor_except, find_doctor_try,
    models_generate_content, gemini_client, failure, call1.
  rewrite K. cbn [negb].
  destruct (GEMINI_API_KEY cfg) as [key|]; [|discriminate].
  unfold_run. rewrite G1. split.
  - intros ->. cbn [receiver]. now rewrite <- app_assoc.
  - intros t1 r2 -> G2 T2. cbn [receiver]. cbv zeta in G2.
    rewrite G2, T2. cbn [receiver]. now rewrite <- !app_assoc.
Qed.

Lemma reply_without_text_is_a_500_witness :
  find_doctor (rt := Sample.runtime) Sample.keys {| input := "fever" |}
              (Sample.gemini_answers More.blocked More.blocked More.blocked) []
  = ([GenerateContent (extraction_request "fever") (inr More.blocked);
      Print "Error: 'NoneType' object has no attribute 'split'"],
     inl (HTTPException 500
            "Failed to analyze symptoms: 'NoneType' object has no attribute 'split'")).
Proof.
  assert (K : configured (GEMINI_API_KEY Sample.keys)).
  { exists "gemini-key". split; [reflexivity | discriminate]. }
  destruct (reply_without_text_is_a_500
              Sample.runtime Sample.keys {| input := "fever" |}
              (Sample.gemini_answers More.blocked More.blocked More.blocked)
              [] More.blocked K eq_refl) as [N _].
  exact (N eq_refl).
Defined.

(** X7.  With the Gemini key configured every run of [/api/find-doctor],
    whatever its outcome, starts with the extraction call, and the prompt
    of that call contains the user's input exactly as it was sent. *)
Theorem configured_run_starts_with_extraction
        (rt : Runtime) (cfg : config) (request : SymptomRequest) (w : world)
        (log log' : list event) (r : exn + FindDoctor.response) :
  configured (GEMINI_API_KEY cfg) ->
  find_doctor cfg request w log = (log', r) ->
  let q1 := extraction_request (input request) in
  (exists rest, log' = (log ++ GenerateContent q1 (gemini w log q1) :: rest)%list)
  /\ exists before after,
       types.contents q1 = before ++ input request ++ after.
Proof.
  intros K R q1. split.
  - apply truthy_configured in K. revert R.
    unfold find_doctor, find_doctor_except, find_doctor_try,
      models_generate_content, gemini_client.
    rewrite K. cbn [negb].
    destruct (GEMINI_API_KEY cfg) as [key|]; [|discriminate].
    unfold_run. fold q1.
    destruct (gemini w log q1) as [e|r1].
    { intros [= <- _]. eexists. now rewrite <- app_assoc. }
    destruct (types.text r1) as [t1|]; cbn [receiver].
    2:{ intros [= <- _]. eexists. now rewrite <- app_assoc. }
    destruct (gemini w _ (recommendation_request _ _)) as [e|r2].
    { intros [= <- _]. eexists. now rewrite <- !app_assoc. }
    destruct (types.text r2) as [t2|]; cbn [receiver].
    2:{ intros [= <- _]. eexists. now rewrite <- !app_assoc. }
    destruct (gemini w _ (maps_request _ _ _)) as [e|r3];
      intros [= <- _]; eexists; now rewrite <- !app_assoc.
  - exists ("Extract the symptoms and location from the following user input."
            ++ nl ++ nl ++ "User Input: ").
    exists (nl ++ String.concat nl
              [ "";
                "Provide the response in this exact format:";
                "SYMPTOMS: [extracted symptoms]";
                "LOCATION: [extracted city name or " ++ dquote ++ "Mumbai"
                  ++ dquote ++ " if not mentioned]";
                "LATITUDE: [latitude of the location]";
                "LONGITUDE: [longitude of the location]";
                "";
                "If location is not mentioned, use Mumbai as default (19.0760, 72.8777)." ]).
    reflexivity.
Qed.

Lemma configured_run_starts_with_extraction_witness :
  exists rest,
    [GenerateContent (extraction_request "fever") (inl Sample.unreachable);
     Print "Error: provider unreachable"]
    = ([] ++ GenerateContent (extraction_request "fever")
                             (inl Sample.unreachable) :: rest)%list.
Proof.
  assert (K : configured (GEMINI_API_KEY Sample.keys)).
  { exists "gemini-key". split; [reflexivity | discriminate]. }
  exact (proj1 (configured_run_starts_with_extraction
                  Sample.runtime Sample.keys {| input := "fever" |}
                  Sample.offline [] _ _ K eq_refl)).
Defined.

(** ** The classifier *)

Lemma doctor_type_of_closed (reply : string) :
  In (doctor_type_of reply)
     [ "Cardiologist"; "Dermatologist"; "Orthopedic"; "Neurologist";
       "ENT Specialist"; "Pediatrician"; "General Physician" ].
Proof.
  unfold doctor_type_of.
  repeat match goal with
         | |- context [if ?b then _ else _] => destruct b
         end; simpl; tauto.
Qed.

(** X8.  The doctor type is always one of seven fixed names, whatever the
    recommendation reply says: for every reply text, and so in the body of
    every run of [/api/find-doctor] that returns one. *)
Theorem doctor_type_is_one_of_seven (rt : Runtime) :
  let names := [ "Cardiologist"; "Dermatologist"; "Orthopedic"; "Neurologist";
                 "ENT Specialist"; "Pediatrician"; "General Physician" ] in
  (forall reply, In (doctor_type_of reply) names)
  /\ (forall cfg request w log log' resp,
         find_doctor cfg request w log = (log', inr resp) ->
         In (FindDoctor.doctor_type resp) names).
Proof.
  split.
  - apply doctor_type_of_closed.
  - intros cfg request w log log' resp R.
    rewrite (find_doctor_classifies _ _ _ _ _ _ R).
    apply doctor_type_of_closed.
Qed.

Lemma occurs_ci_inside (before keyword after reply : string) :
  occurs_ci (before ++ keyword ++ after) reply -> occurs_ci keyword reply.
Proof.
  intros (b & hit & a & -> & L).
  destruct (lower_app_inv _ _ _ L) as (x & rest & -> & _ & L').
  destruct (lower_app_inv _ _ _ L') as (y & z & -> & Ly & _).
  exists (b ++ x), y, (z ++ a). split; [|exact Ly].
  clear. induction b as [|c b IH]; simpl.
  - induction x as [|c x IHx]; simpl; [|now rewrite IHx].
    induction y as [|c y IHy]; simpl; [reflexivity | now rewrite IHy].
  - now rewrite IH.
Qed.

(** X9.  A recommendation reply that follows the format the prompt asks for,
    with its line "What to mention: ..." (in any letter case), is never
    classified as "Pediatrician" or "General Physician": "mention" contains
    "ent", so unless one of the four earlier keywords occurs the answer is
    "ENT Specialist". *)
Theorem requested_format_is_never_pediatrician (reply : string) :
  occurs_ci "what to mention" reply ->
  In (doctor_type_of reply)
     [ "Cardiologist"; "Dermatologist"; "Orthopedic"; "Neurologist";
       "ENT Specialist" ].
Proof.
  intros O.
  apply (occurs_ci_inside "what to m" "ent" "ion") in O.
  apply str_in_lower_iff in O.
  unfold doctor_type_of. rewrite O. cbn [orb].
  repeat match goal with
         | |- context [if ?b then _ else _] => destruct b
         end; simpl; tauto.
Qed.

Lemma requested_format_is_never_pediatrician_witness :
  In (doctor_type_of More.child)
     [ "Cardiologist"; "Dermatologist"; "Orthopedic"; "Neurologist";
       "ENT Specialist" ].
Proof.
  apply (requested_format_is_never_pediatrician More.child).
  apply str_in_lower_iff. reflexivity.
Defined.

(** ** Nearby doctors *)

(** X10.  In every body [/api/find-doctor] returns, each entry of
    [nearby_doctors], grounded or fallback, has the body's location as its
    address, and a rating that is one of the two constants 4.5 and 0: no
    entry carries an address or a rating of its own. *)
Theorem every_entry_has_the_location_as_address
        (rt : Runtime) (cfg : config) (request : SymptomRequest) (w : world)
        (log log' : list event) (resp : FindDoctor.response)
        (entry : doctor_info) :
  find_doctor cfg request w log = (log', inr resp) ->
  In entry (FindDoctor.nearby_doctors resp) ->
  address entry = FindDoctor.location resp
  /\ (rating entry = Float 4.5%float \/ rating entry = Int 0).
Proof.
  intros R I.
  destruct (find_doctor_last_call _ _ _ _ _ _ R)
    as (before & req & maps_response & ->).
  rewrite (find_doctor_nearby _ _ _ _ _ _ _ _ R) in I.
  unfold nearby_doctors_of in I. rewrite grounded_doctors_usable in I.
  destruct (usable_entries maps_response) as [|maps rest].
  - destruct I as [<-|[]]. split; [reflexivity | now right].
  - change (In entry (map (doctor_info_of (FindDoctor.location resp))
                          (maps :: rest))) in I.
    apply in_map_iff in I. destruct I as (m & <- & _).
    split; [reflexivity | now left].
Qed.

Lemma every_entry_has_the_location_as_address_witness :
  address (doctor_info_of "Pune"
             {| types.title := Attr (Some "City Heart Clinic");
                types.uri := Attr (Some "https://maps.google.com/?cid=1") |})
  = "Pune"
  /\ (rating (doctor_info_of "Pune"
                {| types.title := Attr (Some "City Heart Clinic");
                   types.uri := Attr (Some "https://maps.google.com/?cid=1") |})
      = Float 4.5%float
      \/ rating (doctor_info_of "Pune"
                   {| types.title := Attr (Some "City Heart Clinic");
                      types.uri := Attr (Some "https://maps.google.com/?cid=1") |})
         = Int 0).
Proof.
  apply (every_entry_has_the_location_as_address
           Sample.runtime Sample.keys {| input := "chest pain in Pune" |}
           (Sample.gemini_answers (Sample.reply Sample.pune)
                                  (Sample.reply Sample.heart)
                                  Sample.two_places)
           [] _ _ _ eq_refl).
  left. reflexivity.
Defined.

Lemma has_char_app (c : ascii) (a b : string) :
  has_char c (a ++ b) = has_char c a || has_char c b.
Proof.
  induction a as [|d a IH]; simpl; [reflexivity|].
  now rewrite IH, orb_assoc.
Qed.

Lemma spaces_to_plus_no_space (s : string) :
  has_char " " (spaces_to_plus s) = false.
Proof.
  induction s as [|c s IH]; [reflexivity|].
  cbn [spaces_to_plus has_char]. rewrite IH, orb_false_r.
  destruct (Ascii.eqb_spec c " ") as [->|N]; [reflexivity|].
  now apply Ascii.eqb_neq.
Qed.

(** X11.  The search URL of the fallback entry never contains a space that
    comes from the location, but it keeps the spaces of the doctor type as
    they are: it contains a space exactly when the doctor type does, which
    for the classifier's answers means "General Physician" and
    "ENT Specialist". *)
Theorem fallback_url_keeps_the_spaces_of_the_doctor_type
        (doctor_type location : string) :
  exists link,
    url (fallback_doctor doctor_type location) = Some link
    /\ has_char " " link = has_char " " doctor_type
    /\ forall reply,
         doctor_type = doctor_type_of reply ->
         (has_char " " link = true
          <-> doctor_type = "General Physician"
              \/ doctor_type = "ENT Specialist").
Proof.
  eexists. split; [reflexivity|].
  assert (E : has_char " " ("https://www.google.com/maps/search/"
                            ++ doctor_type ++ "+near+"
                            ++ replace location " " "+")
              = has_char " " doctor_type).
  { rewrite replace_space_plus, !has_char_app, spaces_to_plus_no_space.
    cbn. now rewrite orb_false_r. }
  split; [exact E|].
  intros reply D. rewrite E, D.
  pose proof (doctor_type_of_closed reply) as C. cbn [In] in C.
  repeat match goal with H : _ \/ _ |- _ => destruct H as [H|H] end;
    try contradiction;
    match goal with H : _ = doctor_type_of reply |- _ => rewrite <- H end;
    cbn; split; intros F;
    try discriminate F; try reflexivity;
    try (left; reflexivity); try (right; reflexivity);
    destruct F as [F|F]; discriminate F.
Qed.

Lemma fallback_url_keeps_the_spaces_of_the_doctor_type_witness :
  exists link,
    url (fallback_doctor "ENT Specialist" "New Delhi") = Some link
    /\ has_char " " link = true.
Proof.
  destruct (fallback_url_keeps_the_spaces_of_the_doctor_type
              "ENT Specialist" "New Delhi") as (link & U & _ & F).
  exists link. split; [exact U|].
  apply (F Sample.fever); [reflexivity | right; reflexivity].
Defined.

(** X12.  Only the first candidate of the maps response and the first five
    of its grounding chunks are read: the nearby doctors are those of the
    response cut down to that candidate and those chunks.  So a place that
    appears only in a later candidate or from the sixth chunk on is never
    listed. *)
Theorem only_the_first_five_chunks_are_read
        (doctor_type location : string)
        (maps_response : types.GenerateContentResponse)
        (candidate : types.Candidate) (others : list types.Candidate)
        (chunks : list types.GroundingChunk) :
  types.candidates maps_response = Some (candidate :: others) ->
  types.grounding_metadata candidate
  = Some {| types.grounding_chunks := Some chunks |} ->
  nearby_doctors_of doctor_type location maps_response
  = nearby_doctors_of doctor_type location
      (with_candidates maps_response
         (Some [ {| types.grounding_metadata :=
                      Some {| types.grounding_chunks :=
                                Some (firstn 5 chunks) |} |} ])).
Proof.
  intros C G. unfold nearby_doctors_of.
  rewrite !grounded_doctors_usable. unfold usable_entries, with_candidates.
  rewrite C, G. cbn [types.candidates types.grounding_metadata
                       types.grounding_chunks].
  now rewrite firstn_firstn.
Qed.

Lemma only_the_first_five_chunks_are_read_witness :
  nearby_doctors_of "Cardiologist" "Pune" More.late_place
  = [fallback_doctor "Cardiologist" "Pune"].
Proof.
  rewrite (only_the_first_five_chunks_are_read
             "Cardiologist" "Pune" More.late_place _ _ _ eq_refl eq_refl).
  reflexivity.
Defined.

(** ** The extraction format *)

Lemma split_line (a b : string) :
  has_char LF a = false ->
  split (a ++ String LF b) LF = a :: split b LF.
Proof.
  induction a as [|c a IH]; intros N.
  - reflexivity.
  - cbn [has_char] in N. apply orb_false_iff in N. destruct N as [Nc Na].
    cbn [append split]. rewrite Nc, (IH Na). reflexivity.
Qed.

Lemma split_last_line (a : string) :
  has_char LF a = false -> split a LF = [a].
Proof.
  induction a as [|c a IH]; intros N; [reflexivity|].
  cbn [has_char] in N. apply orb_false_iff in N. destruct N as [Nc Na].
  cbn [split]. rewrite Nc, (IH Na). reflexivity.
Qed.

Lemma rstrip_cons (c : ascii) (s : string) :
  isspace c = false -> rstrip (String c s) = String c (rstrip s).
Proof. intros N. cbn [rstrip]. rewrite N. now destruct (rstrip s). Qed.

Lemma rstrip_compact (p s : string) :
  compact p = true -> rstrip (p ++ s) = p ++ rstrip s.
Proof.
  induction p as [|c p IH]; intros C; [reflexivity|].
  cbn [compact] in C. apply andb_true_iff in C. destruct C as [Cc Cp].
  apply negb_true_iff in Cc.
  cbn [append]. now rewrite rstrip_cons, IH.
Qed.

Lemma rstrip_idempotent (s : string) : rstrip (rstrip s) = rstrip s.
Proof.
  induction s as [|c s IH]; [reflexivity|].
  cbn [rstrip]. destruct (rstrip s) as [|d r] eqn:E.
  - destruct (isspace c) eqn:W; [reflexivity|].
    cbn [rstrip]. now rewrite W.
  - cbn [rstrip]. cbn [rstrip] in IH.
    change (match rstrip r with
            | EmptyString => if isspace d then EmptyString
                             else String d EmptyString
            | String a s0 => String d (String a s0)
            end) with (rstrip (String d r)) in *.
    now rewrite IH.
Qed.

Lemma lstrip_head (s : string) :
  match lstrip s with
  | EmptyString => True
  | String c _ => isspace c = false
  end.
Proof.
  induction s as [|c s IH]; [exact I|].
  cbn [lstrip]. now destruct (isspace c) eqn:W.
Qed.

Lemma strip_trimmed (s : string) : trimmed (strip s).
Proof.
  unfold trimmed, strip. split; [|apply rstrip_idempotent].
  pose proof (lstrip_head s) as Hd.
  destruct (lstrip s) as [|c t]; [reflexivity|].
  rewrite (rstrip_cons _ _ Hd). cbn [lstrip]. now rewrite Hd.
Qed.

Lemma prefix_app (p s : string) : prefix p (p ++ s) = true.
Proof. apply prefix_iff. now exists s. Qed.

Lemma replace_from_skip (old new a s : string) :
  replace_from old new (a ++ s) (String.length a) = replace_from old new s 0.
Proof.
  induction a as [|c a IH]; [reflexivity|].
  cbn [append String.length replace_from]. exact IH.
Qed.

Lemma replace_from_absent (old new s : string) :
  str_in old s = false -> replace_from old new s 0 = s.
Proof.
  induction s as [|c s IH]; intros N; [reflexivity|].
  cbn [str_in] in N. apply orb_false_iff in N. destruct N as [Np Ns].
  cbn [replace_from]. now rewrite Np, (IH Ns).
Qed.

Lemma str_in_cons (sub : string) (c : ascii) (s : string) :
  str_in sub (String c s) = prefix sub (String c s) || str_in sub s.
Proof. reflexivity. Qed.

Lemma replace_label (c : ascii) (rest u : string) :
  replace (String c rest ++ u) (String c rest) ""
  = replace_from (String c rest) "" u 0.
Proof.
  unfold replace. cbn [append replace_from].
  change (String c (rest ++ u)) with (String c rest ++ u).
  rewrite prefix_app. cbn [String.length Nat.sub append].
  rewrite Nat.sub_0_r. apply replace_from_skip.
Qed.

Lemma rstrip_after_space (value : string) :
  rstrip value = value ->
  rstrip (" " ++ value)
  = match value with
    | EmptyString => EmptyString
    | _ => " " ++ value
    end.
Proof. intros T. cbn [append rstrip]. rewrite T. now destruct value. Qed.

(** A line "label value" of the format: what [scan_line] makes of it. *)
Lemma labelled_line (c : ascii) (rest value : string) :
  compact (String c rest) = true ->
  plain_value (String c rest) value ->
  strip (String c rest ++ " " ++ value)
  = String c rest ++ rstrip (" " ++ value)
  /\ startswith (strip (String c rest ++ " " ++ value)) (String c rest) = true
  /\ value_of (String c rest) (strip (String c rest ++ " " ++ value)) = value.
Proof.
  intros C (_ & (Tl & Tr) & A).
  assert (Hc : isspace c = false).
  { cbn [compact] in C. apply andb_true_iff in C. now apply negb_true_iff. }
  assert (S : strip (String c rest ++ " " ++ value)
              = String c rest ++ rstrip (" " ++ value)).
  { unfold strip.
    replace (lstrip (String c rest ++ " " ++ value))
      with (String c rest ++ " " ++ value)
      by (cbn [append lstrip]; now rewrite Hc).
    now apply rstrip_compact. }
  split; [exact S|]. split.
  { rewrite S. apply prefix_app. }
  unfold value_of. rewrite S, replace_label, (rstrip_after_space _ Tr).
  destruct value as [|d v]; [reflexivity|].
  rewrite replace_from_absent.
  - unfold strip. change (lstrip (" " ++ String d v)) with (lstrip (String d v)).
    now rewrite Tl, Tr.
  - change (" " ++ String d v) with (String " " (String d v)).
    rewrite str_in_cons, A, orb_false_r. cbn [prefix].
    destruct (ascii_dec c " ") as [->|]; [discriminate Hc | reflexivity].
Qed.

Lemma vars_eq (v1 v2 : Extracted.vars) :
  Extracted.symptoms v1 = Extracted.symptoms v2 ->
  Extracted.location v1 = Extracted.location v2 ->
  Extracted.latitude v1 = Extracted.latitude v2 ->
  Extracted.longitude v1 = Extracted.longitude v2 ->
  v1 = v2.
Proof. destruct v1, v2; cbn; congruence. Qed.

Section FormatLines.
Context {rt : Runtime}.

Lemma scan_symptoms_line (v : Extracted.vars) (value : string) :
  plain_value "SYMPTOMS:" value ->
  scan_line v ("SYMPTOMS: " ++ value)
  = {| Extracted.symptoms := value;
       Extracted.location := Extracted.location v;
       Extracted.latitude := Extracted.latitude v;
       Extracted.longitude := Extracted.longitude v |}.
Proof.
  intros P.
  destruct (labelled_line "S" "YMPTOMS:" value eq_refl P) as (_ & W & V).
  change ("SYMPTOMS:" ++ " " ++ value) with ("SYMPTOMS: " ++ value) in *.
  destruct (labels_exclusive (strip ("SYMPTOMS: " ++ value))) as (X & _).
  destruct (X W) as (X1 & X2 & X3).
  apply vars_eq; cbn [Extracted.symptoms Extracted.location
                        Extracted.latitude Extracted.longitude].
  - now rewrite scan_line_symptoms, W.
  - now rewrite scan_line_location, X1.
  - now rewrite scan_line_latitude, X2.
  - now rewrite scan_line_longitude, X3.
Qed.

Lemma scan_location_line (v : Extracted.vars) (value : string) :
  plain_value "LOCATION:" value ->
  scan_line v ("LOCATION: " ++ value)
  = {| Extracted.symptoms := Extracted.symptoms v;
       Extracted.location := value;
       Extracted.latitude := Extracted.latitude v;
       Extracted.longitude := Extracted.longitude v |}.
Proof.
  intros P.
  destruct (labelled_line "L" "OCATION:" value eq_refl P) as (_ & W & V).
  change ("LOCATION:" ++ " " ++ value) with ("LOCATION: " ++ value) in *.
  destruct (labels_exclusive (strip ("LOCATION: " ++ value))) as (X & Y & _).
  destruct (Y W) as (Y1 & Y2).
  assert (X0 : startswith (strip ("LOCATION: " ++ value)) "SYMPTOMS:" = false).
  { destruct (startswith (strip ("LOCATION: " ++ value)) "SYMPTOMS:");
      [|reflexivity]. destruct (X eq_refl) as (F & _). congruence. }
  apply vars_eq; cbn [Extracted.symptoms Extracted.location
                        Extracted.latitude Extracted.longitude].
  - now rewrite scan_line_symptoms, X0.
  - now rewrite scan_line_location, W.
  - now rewrite scan_line_latitude, Y1.
  - now rewrite scan_line_longitude, Y2.
Qed.

Lemma scan_latitude_line (v : Extracted.vars) (value : string) (x : float) :
  plain_value "LATITUDE:" value ->
  py_float value = Some x ->
  scan_line v ("LATITUDE: " ++ value)
  = {| Extracted.symptoms := Extracted.symptoms v;
       Extracted.location := Extracted.location v;
       Extracted.latitude := x;
       Extracted.longitude := Extracted.longitude v |}.
Proof.
  intros P F.
  destruct (labelled_line "L" "ATITUDE:" value eq_refl P) as (_ & W & V).
  change ("LATITUDE:" ++ " " ++ value) with ("LATITUDE: " ++ value) in *.
  destruct (labels_exclusive (strip ("LATITUDE: " ++ value))) as (X & Y & Z).
  assert (X0 : startswith (strip ("LATITUDE: " ++ value)) "SYMPTOMS:" = false).
  { destruct (startswith (strip ("LATITUDE: " ++ value)) "SYMPTOMS:");
      [|reflexivity]. destruct (X eq_refl) as (_ & E & _). congruence. }
  assert (Y0 : startswith (strip ("LATITUDE: " ++ value)) "LOCATION:" = false).
  { destruct (startswith (strip ("LATITUDE: " ++ value)) "LOCATION:");
      [|reflexivity]. destruct (Y eq_refl) as (E & _). congruence. }
  apply vars_eq; cbn [Extracted.symptoms Extracted.location
                        Extracted.latitude Extracted.longitude].
  - now rewrite scan_line_symptoms, X0.
  - now rewrite scan_line_location, Y0.
  - now rewrite scan_line_latitude, W, V, F.
  - now rewrite scan_line_longitude, (Z W).
Qed.

Lemma scan_longitude_line (v : Extracted.vars) (value : string) (x : float) :
  plain_value "LONGITUDE:" value ->
  py_float value = Some x ->
  scan_line v ("LONGITUDE: " ++ value)
  = {| Extracted.symptoms := Extracted.symptoms v;
       Extracted.location := Extracted.location v;
       Extracted.latitude := Extracted.latitude v;
       Extracted.longitude := x |}.
Proof.
  intros P F.
  destruct (labelled_line "L" "ONGITUDE:" value eq_refl P) as (_ & W & V).
  change ("LONGITUDE:" ++ " " ++ value) with ("LONGITUDE: " ++ value) in *.
  destruct (labels_exclusive (strip ("LONGITUDE: " ++ value))) as (X & Y & Z).
  assert (X0 : startswith (strip ("LONGITUDE: " ++ value)) "SYMPTOMS:" = false).
  { destruct (startswith (strip ("LONGITUDE: " ++ value)) "SYMPTOMS:");
      [|reflexivity]. destruct (X eq_refl) as (_ & _ & E). congruence. }
  assert (Y0 : startswith (strip ("LONGITUDE: " ++ value)) "LOCATION:" = false).
  { destruct (startswith (strip ("LONGITUDE: " ++ value)) "LOCATION:");
      [|reflexivity]. destruct (Y eq_refl) as (_ & E). congruence. }
  assert (Z0 : startswith (strip ("LONGITUDE: " ++ value)) "LATITUDE:" = false).
  { destruct (startswith (strip ("LONGITUDE: " ++ value)) "LATITUDE:");
      [|reflexivity]. specialize (Z eq_refl). congruence. }
  apply vars_eq; cbn [Extracted.symptoms Extracted.location
                        Extracted.latitude Extracted.longitude].
  - now rewrite scan_line_symptoms, X0.
  - now rewrite scan_line_location, Y0.
  - now rewrite scan_line_latitude, Z0.
  - now rewrite scan_line_longitude, W, V, F.
Qed.

End FormatLines.

(** X13.  A reply in the format the extraction prompt asks for is read
    back: four lines "SYMPTOMS: s", "LOCATION: l", "LATITUDE: a",
    "LONGITUDE: o", where each value is on one line, has no whitespace at
    its ends and does not contain its own label, and [float] reads [a] and
    [o] as [x] and [y], give the variables s, l, x and y. *)
Theorem formatted_reply_is_read_back
        (rt : Runtime) (s l a o : string) (x y : float) :
  plain_value "SYMPTOMS:" s ->
  plain_value "LOCATION:" l ->
  plain_value "LATITUDE:" a ->
  plain_value "LONGITUDE:" o ->
  py_float a = Some x ->
  py_float o = Some y ->
  parse_extraction (formatted_reply s l a o)
  = {| Extracted.symptoms := s;
       Extracted.location := l;
       Extracted.latitude := x;
       Extracted.longitude := y |}.
Proof.
  intros Ps Pl Pa Po Fa Fo. unfold parse_extraction.
  change (formatted_reply s l a o)
    with (("SYMPTOMS: " ++ s)
          ++ String LF (("LOCATION: " ++ l)
                        ++ String LF (("LATITUDE: " ++ a)
                                      ++ String LF ("LONGITUDE: " ++ o)))).
  destruct Ps as (Ns & Ps), Pl as (Nl & Pl), Pa as (Na & Pa), Po as (No & Po).
  rewrite !split_line, split_last_line
    by (rewrite has_char_app; cbn; assumption).
  cbn [fold_left].
  rewrite scan_symptoms_line by (split; assumption).
  rewrite scan_location_line by (split; assumption).
  rewrite (scan_latitude_line _ _ x) by (try split; assumption).
  rewrite (scan_longitude_line _ _ y) by (try split; assumption).
  reflexivity.
Qed.

Lemma formatted_reply_is_read_back_witness :
  parse_extraction (rt := Sample.runtime)
    (formatted_reply "chest pain" "Pune" "18.5204" "73.8567")
  = {| Extracted.symptoms := "chest pain";
       Extracted.location := "Pune";
       Extracted.latitude := 18.5204%float;
       Extracted.longitude := 73.8567%float |}.
Proof.
  apply (formatted_reply_is_read_back Sample.runtime);
    try reflexivity; repeat split; reflexivity.
Defined.

Lemma last_keeps {A} (P : A -> Prop) (l : list A) (d : A) :
  (forall x, In x l -> P x) -> P d -> P (last l d).
Proof.
  revert d; induction l as [|a l IH]; intros d Hl Hd; [exact Hd|].
  rewrite last_cons. apply IH.
  - intros x Hx. apply Hl. now right.
  - apply Hl. now left.
Qed.

Lemma value_of_trimmed (label : string) (l : list string) (d : string) :
  trimmed d -> trimmed (last (map (value_of label) l) d).
Proof.
  intros Hd. apply last_keeps; [|exact Hd].
  intros x Hx. apply in_map_iff in Hx. destruct Hx as (line & <- & _).
  apply strip_trimmed.
Qed.

(** X14.  The symptoms and the location read from an extraction reply never
    start or end with whitespace, whatever the reply is; so neither do the
    [symptoms] and [location] of a body [/api/find-doctor] returns. *)
Theorem extracted_text_is_trimmed (rt : Runtime) :
  (forall extraction_text,
      trimmed (Extracted.symptoms (parse_extraction extraction_text))
      /\ trimmed (Extracted.location (parse_extraction extraction_text)))
  /\ (forall cfg request w log log' resp,
         find_doctor cfg request w log = (log', inr resp) ->
         trimmed (FindDoctor.symptoms resp)
         /\ trimmed (FindDoctor.location resp)).
Proof.
  assert (P : forall extraction_text,
             trimmed (Extracted.symptoms (parse_extraction extraction_text))
             /\ trimmed (Extracted.location (parse_extraction extraction_text))).
  { intros text. unfold parse_extraction. split.
    - rewrite (loop_text Extracted.symptoms "SYMPTOMS:" scan_line_symptoms).
      apply value_of_trimmed. now split.
    - rewrite (loop_text Extracted.location "LOCATION:" scan_line_location).
      apply value_of_trimmed. now split. }
  split; [exact P|].
  intros cfg request w log log' resp R. apply find_doctor_success in R.
  destruct R as (r1 & t1 & r2 & t2 & r3 & _ & _ & _ & ->).
  cbn [FindDoctor.symptoms FindDoctor.location]. apply P.
Qed.

(** X15.  When the extraction reply gives no latitude and no longitude that
    [float] accepts, the maps call of a run that returns a body is positioned
    at the default 19.0760, 72.8777 (Mumbai), whatever location name was
    read from the same reply and returned in the body. *)
Theorem maps_call_defaults_to_mumbai
        (rt : Runtime) (cfg : config) (request : SymptomRequest) (w : world)
        (log : list event) (r1 : types.GenerateContentResponse) (t1 : string)
        (call2 : event) (q3 : types.GenerateContentRequest)
        (o3 : exn + types.GenerateContentResponse)
        (resp : FindDoctor.response) :
  find_doctor cfg request w log
  = ((log ++ [GenerateContent (extraction_request (input request)) (inr r1);
              call2; GenerateContent q3 o3])%list, inr resp) ->
  types.text r1 = Some t1 ->
  numeric "LATITUDE:" t1 = [] ->
  numeric "LONGITUDE:" t1 = [] ->
  types.config q3 = Some {| types.latitude := 19.0760%float;
                            types.longitude := 72.8777%float |}
  /\ FindDoctor.location resp
     = last (map (value_of "LOCATION:") (labelled "LOCATION:" t1)) "Mumbai".
Proof.
  intros R T A O. apply find_doctor_success in R.
  destruct R as (r1' & t1' & r2 & t2 & r3 & T1 & _ & L & ->). cbv zeta in L.
  apply app_inv_head in L. injection L as E1 _ E3 _.
  subst r1' q3. rewrite T in T1. injection T1 as <-.
  cbn [maps_request types.config FindDoctor.location]. unfold parse_extraction.
  rewrite (loop_number Extracted.latitude "LATITUDE:" scan_line_latitude).
  rewrite (loop_number Extracted.longitude "LONGITUDE:" scan_line_longitude).
  rewrite (loop_text Extracted.location "LOCATION:" scan_line_location).
  fold (labelled "LATITUDE:" t1). fold (numeric "LATITUDE:" t1).
  fold (labelled "LONGITUDE:" t1). fold (numeric "LONGITUDE:" t1).
  now rewrite A, O.
Qed.

Lemma maps_call_defaults_to_mumbai_witness :
  exists q3 resp,
    List.last (fst (Sample.visit "fever" (Sample.reply Sample.new_delhi)
                                 (Sample.reply Sample.fever)
                                 Sample.ungrounded))
              (Print "")
    = GenerateContent q3 (inr Sample.ungrounded)
    /\ snd (Sample.visit "fever" (Sample.reply Sample.new_delhi)
                         (Sample.reply Sample.fever) Sample.ungrounded)
       = inr resp
    /\ types.config q3 = Some {| types.latitude := 19.0760%float;
                                 types.longitude := 72.8777%float |}
    /\ FindDoctor.location resp = "New Delhi".
Proof.
  eexists. eexists. split; [reflexivity|]. split; [reflexivity|].
  exact (maps_call_defaults_to_mumbai
           Sample.runtime Sample.keys {| input := "fever" |}
           (Sample.gemini_answers (Sample.reply Sample.new_delhi)
                                  (Sample.reply Sample.fever)
                                  Sample.ungrounded)
           [] (Sample.reply Sample.new_delhi) Sample.new_delhi
           _ _ _ _ eq_refl eq_refl eq_refl eq_refl).
Defined.

(** X16.  When the uploaded file cannot be read, [/api/speech-to-text] fails
    with a 500 whose detail ends in the reading error, and nothing is sent
    to Sarvam: the print of the error is the only effect. *)
Theorem unreadable_upload_is_not_sent
        (rt : Runtime) (cfg : config) (audio : UploadFile) (w : world)
        (log : list event) (e : exn) :
  configured (SARVAM_API_KEY cfg) ->
  read audio = inl e ->
  speech_to_text cfg audio w log
  = ((log ++ [Print ("Speech to text error: " ++ str_exn e)])%list,
     inl (HTTPException 500
            ("Failed to convert speech to text: " ++ str_exn e))).
Proof.
  intros K R. apply truthy_configured in K.
  unfold speech_to_text, speech_to_text_except, speech_to_text_try.
  rewrite K. cbn [negb]. unfold_run. now rewrite R.
Qed.

Lemma unreadable_upload_is_not_sent_witness :
  speech_to_text (rt := Sample.runtime) Sample.keys
                 {| filename := None;
                    content_type := None;
                    read := inl (Raised "OSError" "file is closed") |}
                 (Sample.sarvam_answers More.transcribed) []
  = ([Print "Speech to text error: file is closed"],
     inl (HTTPException 500
            "Failed to convert speech to text: file is closed")).
Proof.
  apply (unreadable_upload_is_not_sent
           Sample.runtime Sample.keys
           {| filename := None;
              content_type := None;
              read := inl (Raised "OSError" "file is closed") |}
           (Sample.sarvam_answers More.transcribed) []
           (Raised "OSError" "file is closed"));
    [|reflexivity].
  exists "sarvam-key". split; [reflexivity | discriminate].
Defined.
